(** * Tech interview generator: the generator modules and their pipelines

    A shallow embedding of [src/interview_generator/signatures.py] and
    [src/interview_generator/modules.py].  The prompting runtime behind
    [dspy.ChainOfThought] and the language model it talks to are third-party:
    they appear here as one opaque completion service, a function from the
    calls made so far and the present call to either a raised exception or a
    prediction.  Every [forward] method is a computation that reads this
    service, appends to the log of calls, and returns a value or raises. *)

From stdpp Require Import gmap strings list pretty.

Local Open Scope string_scope.
Local Open Scope list_scope.

(** ** Python values *)

(** The values that the signatures' fields carry ([str], [int]) and [None]. *)
Inductive PyVal : Type :=
  | PyNone
  | PyStr (s : string)
  | PyInt (n : Z).

#[global] Instance PyVal_eq_dec : EqDecision PyVal.
Proof. solve_decision. Defined.

(** [str(v)], which is also what an f-string placeholder [{v}] prints. *)
Definition py_str (v : PyVal) : string :=
  match v with
  | PyNone => "None"
  | PyStr s => s
  | PyInt n => pretty n
  end.

(** [a == b] on these values. *)
Definition py_eq (a b : PyVal) : bool := bool_decide (a = b).

(** The line feed written [\n] in the source's string literals. *)
Definition nl : string :=
  String (Ascii.Ascii false true false true false false false false) EmptyString.

(** ** Exceptions *)

Record PyExn : Type := Raise { exn_class : string; exn_msg : string }.

#[global] Instance PyExn_eq_dec : EqDecision PyExn.
Proof. solve_decision. Defined.

Definition ValueError (msg : string) : PyExn := Raise "ValueError" msg.
Definition AttributeError (msg : string) : PyExn := Raise "AttributeError" msg.

(** ** signatures.py *)

Inductive Signature : Type :=
  | GenerateQuestion
  | GenerateFollowUp
  | AssessDifficulty
  | GenerateCodingQuestion
  | GenerateMLQuestion.

#[global] Instance Signature_eq_dec : EqDecision Signature.
Proof. solve_decision. Defined.


(** The [dspy.OutputField]s of each signature, in declaration order. *)
Definition output_fields (sig : Signature) : list string :=
  match sig with
  | GenerateQuestion => ["question"; "explanation"]
  | GenerateFollowUp => ["followup_questions"]
  | AssessDifficulty => ["assessed_difficulty"; "reasoning"]
  | GenerateCodingQuestion =>
      ["question_title"; "question_description"; "input_format";
       "output_format"; "constraints"; "example"]
  | GenerateMLQuestion => ["question"; "key_concepts"; "expected_depth"]
  end.

(** ** The completion service and the effect of calling it *)

(** What a predictor returns: an object whose attributes are the fields the
    service produced. *)
Abbreviation Prediction := (gmap string PyVal).

(** One call of a predictor: the signature it was built from and the keyword
    arguments it was called with, in the order they were written. *)
Record Call : Type := MkCall {
  call_sig : Signature;
  call_kwargs : list (string * PyVal)
}.

#[global] Instance Call_eq_dec : EqDecision Call.
Proof. solve_decision. Defined.

Inductive Outcome (A : Type) : Type :=
  | Returned (a : A)
  | Raised (e : PyExn).
Arguments Returned {A} a.
Arguments Raised {A} e.

(** The service answers a call knowing the calls that came before it. *)
Definition Service : Type := list Call -> Call -> Outcome Prediction.

(** A computation: given the service and the log of calls so far, the log
    afterwards and the outcome. *)
Definition M (A : Type) : Type := Service -> list Call -> list Call * Outcome A.

Definition ret {A} (a : A) : M A := fun _ log => (log, Returned a).

Definition raise {A} (e : PyExn) : M A := fun _ log => (log, Raised e).

Definition bind {A B} (m : M A) (k : A -> M B) : M B :=
  fun lm log =>
    match m lm log with
    | (log', Returned a) => k a lm log'
    | (log', Raised e) => (log', Raised e)
    end.

Notation "x <- m ;; k" := (bind m (fun x => k))
  (at level 20, m at level 99, k at level 200, only parsing).
Notation "' p <- m ;; k" := (bind m (fun x => match x with p => k end))
  (at level 20, p pattern, m at level 99, k at level 200, only parsing).

(** A call of the predictor [dspy.ChainOfThought(sig)]: it is logged and the service
    answers it. *)
Definition ChainOfThought (sig : Signature) (kwargs : list (string * PyVal))
  : M Prediction :=
  fun lm log =>
    let c := MkCall sig kwargs in
    (log ++ [c], lm log c).

(** [obj.name] on a prediction. *)
Definition getattr (obj : Prediction) (name : string) : M PyVal :=
  match obj !! name with
  | Some v => ret v
  | None =>
      raise (AttributeError
               ("'Prediction' object has no attribute '" +:+ name +:+ "'"))
  end.

(** ** modules.py *)

Module QuestionGenerator.
Definition forward (topic question_type difficulty : PyVal) : M Prediction :=
  result <-
    ChainOfThought GenerateQuestion
      [("topic", topic);
       ("question_type", question_type);
       ("difficulty", difficulty)] ;;
  ret result.
End QuestionGenerator.

Module CodingQuestionGenerator.
Definition forward (topic difficulty : PyVal) : M Prediction :=
  result <-
    ChainOfThought GenerateCodingQuestion
      [("topic", topic); ("difficulty", difficulty)] ;;
  ret result.
End CodingQuestionGenerator.

Module MLQuestionGenerator.
(** [question_style] defaults to ["mixed"]. *)
Definition forward (topic difficulty : PyVal) (question_style : option PyVal)
  : M Prediction :=
  let question_style := default (PyStr "mixed") question_style in
  result <-
    ChainOfThought GenerateMLQuestion
      [("topic", topic);
       ("difficulty", difficulty);
       ("question_style", question_style)] ;;
  ret result.
End MLQuestionGenerator.

Module FollowUpGenerator.
(** [num_followups] defaults to [3]. *)
Definition forward (original_question topic : PyVal)
    (num_followups : option PyVal) : M Prediction :=
  let num_followups := default (PyInt 3) num_followups in
  result <-
    ChainOfThought GenerateFollowUp
      [("original_question", original_question);
       ("topic", topic);
       ("num_followups", num_followups)] ;;
  ret result.
End FollowUpGenerator.

Module InterviewPipeline.
(** The dictionary that [forward] returns. *)
Record Result : Type := MkResult {
  question : PyVal;
  explanation : PyVal;
  requested_difficulty : PyVal;
  assessed_difficulty : PyVal;
  difficulty_reasoning : PyVal;
  followup_questions : PyVal
}.

(** [self.difficulty_assessor = dspy.ChainOfThought(AssessDifficulty)] *)
Definition difficulty_assessor (question topic : PyVal) : M Prediction :=
  ChainOfThought AssessDifficulty [("question", question); ("topic", topic)].

Definition forward (topic question_type difficulty : PyVal)
    (num_followups : option PyVal) : M Result :=
  let num_followups := default (PyInt 3) num_followups in
  question_result <-
    QuestionGenerator.forward topic question_type difficulty ;;
  q2 <- getattr question_result "question" ;;
  followup_result <-
    FollowUpGenerator.forward q2 topic (Some num_followups) ;;
  q3 <- getattr question_result "question" ;;
  difficulty_result <- difficulty_assessor q3 topic ;;
  r_question <- getattr question_result "question" ;;
  r_explanation <- getattr question_result "explanation" ;;
  r_assessed <- getattr difficulty_result "assessed_difficulty" ;;
  r_reasoning <- getattr difficulty_result "reasoning" ;;
  r_followups <- getattr followup_result "followup_questions" ;;
  ret {| question := r_question;
         explanation := r_explanation;
         requested_difficulty := difficulty;
         assessed_difficulty := r_assessed;
         difficulty_reasoning := r_reasoning;
         followup_questions := r_followups |}.
End InterviewPipeline.

Module CompleteInterviewGenerator.
(** The dictionary that [forward] returns. *)
Record Result : Type := MkResult {
  question : PyVal;
  details : Prediction;
  difficulty : PyVal;
  followup_questions : PyVal
}.

(** The [if]/[elif]/[else] chain of [forward]: it binds [main_question] and
    [result], or raises. *)
Definition dispatch (topic question_type difficulty : PyVal)
  : M (PyVal * Prediction) :=
  if py_eq question_type (PyStr "coding") then
    result <- CodingQuestionGenerator.forward topic difficulty ;;
    question_title <- getattr result "question_title" ;;
    question_description <- getattr result "question_description" ;;
    input_format <- getattr result "input_format" ;;
    output_format <- getattr result "output_format" ;;
    constraints <- getattr result "constraints" ;;
    example <- getattr result "example" ;;
    let main_question :=
      PyStr (py_str question_title +:+ nl +:+ nl +:+
             py_str question_description +:+ nl +:+ nl +:+
             "Input: " +:+ py_str input_format +:+ nl +:+
             "Output: " +:+ py_str output_format +:+ nl +:+ nl +:+
             "Constraints: " +:+ py_str constraints +:+ nl +:+ nl +:+
             "Example:" +:+ nl +:+ py_str example) in
    ret (main_question, result)
  else if py_eq question_type (PyStr "ml_theory") then
    ml_result <-
      MLQuestionGenerator.forward topic difficulty
        (Some (PyStr "theoretical")) ;;
    main_question <- getattr ml_result "question" ;;
    ret (main_question, ml_result)
  else if py_eq question_type (PyStr "ml_practical") then
    ml_result <-
      MLQuestionGenerator.forward topic difficulty
        (Some (PyStr "practical")) ;;
    main_question <- getattr ml_result "question" ;;
    ret (main_question, ml_result)
  else
    raise (ValueError ("Unknown question type: " +:+ py_str question_type)).

Definition forward (topic question_type difficulty : PyVal)
    (num_followups : option PyVal) : M Result :=
  let num_followups := default (PyInt 3) num_followups in
  '(main_question, result) <- dispatch topic question_type difficulty ;;
  followup_result <-
    FollowUpGenerator.forward main_question topic (Some num_followups) ;;
  r_followups <- getattr followup_result "followup_questions" ;;
  ret {| question := main_question;
         details := result;
         difficulty := difficulty;
         followup_questions := r_followups |}.
End CompleteInterviewGenerator.

(** ** Calling a generator *)











(** The swap that the specification considers for [InterviewPipeline]: the
    same method with the difficulty assessment run before the follow-up
    generation.  It is not in the source; it is written from the
    specification's words to be compared with [InterviewPipeline.forward]. *)
Definition InterviewPipeline_forward_assess_first
    (topic question_type difficulty : PyVal) (num_followups : option PyVal)
  : M InterviewPipeline.Result :=
  let num_followups := default (PyInt 3) num_followups in
  question_result <-
    QuestionGenerator.forward topic question_type difficulty ;;
  q3 <- getattr question_result "question" ;;
  difficulty_result <- InterviewPipeline.difficulty_assessor q3 topic ;;
  q2 <- getattr question_result "question" ;;
  followup_result <-
    FollowUpGenerator.forward q2 topic (Some num_followups) ;;
  r_question <- getattr question_result "question" ;;
  r_explanation <- getattr question_result "explanation" ;;
  r_assessed <- getattr difficulty_result "assessed_difficulty" ;;
  r_reasoning <- getattr difficulty_result "reasoning" ;;
  r_followups <- getattr followup_result "followup_questions" ;;
  ret {| InterviewPipeline.question := r_question;
         InterviewPipeline.explanation := r_explanation;
         InterviewPipeline.requested_difficulty := difficulty;
         InterviewPipeline.assessed_difficulty := r_assessed;
         InterviewPipeline.difficulty_reasoning := r_reasoning;
         InterviewPipeline.followup_questions := r_followups |}.

(** ** Observations on a run *)

(** The value a run returned, if it returned. *)
Definition result_of {A} (run : list Call * Outcome A) : option A :=
  match run.2 with
  | Returned a => Some a
  | Raised _ => None
  end.

(** The value passed for the keyword [name] in a call. *)
Definition kwarg (c : Call) (name : string) : option PyVal :=
  (list_to_map (call_kwargs c) : gmap string PyVal) !! name.

(** The [num_followups] of every follow-up call in a list of calls. *)
Definition followup_counts (calls : list Call) : list (option PyVal) :=
  (fun c => kwarg c "num_followups")
    <$> filter (fun c => call_sig c = GenerateFollowUp) calls.

(** The calls built by the modules, named after the predictor they reach. *)
Definition question_call (topic question_type difficulty : PyVal) : Call :=
  MkCall GenerateQuestion
    [("topic", topic); ("question_type", question_type);
     ("difficulty", difficulty)].

Definition coding_call (topic difficulty : PyVal) : Call :=
  MkCall GenerateCodingQuestion [("topic", topic); ("difficulty", difficulty)].

Definition ml_call (topic difficulty question_style : PyVal) : Call :=
  MkCall GenerateMLQuestion
    [("topic", topic); ("difficulty", difficulty);
     ("question_style", question_style)].

Definition followup_call (original_question topic num_followups : PyVal)
  : Call :=
  MkCall GenerateFollowUp
    [("original_question", original_question); ("topic", topic);
     ("num_followups", num_followups)].

Definition assess_call (question topic : PyVal) : Call :=
  MkCall AssessDifficulty [("question", question); ("topic", topic)].

(** The text that the coding branch assembles from the six output fields. *)
Definition coding_text (title description input output constraints example
  : PyVal) : string :=
  py_str title +:+ nl +:+ nl +:+
  py_str description +:+ nl +:+ nl +:+
  "Input: " +:+ py_str input +:+ nl +:+
  "Output: " +:+ py_str output +:+ nl +:+ nl +:+
  "Constraints: " +:+ py_str constraints +:+ nl +:+ nl +:+
  "Example:" +:+ nl +:+ py_str example.

(** ** Services used in the examples *)

(** A prediction that fills every declared output field of a signature. *)
Definition canned (sig : Signature) : Prediction :=
  list_to_map (map (fun f => (f, PyStr ("<" +:+ f +:+ ">"))) (output_fields sig)).

(** A service that never looks at the history and never fails. *)
Definition canned_service : Service := fun _ c => Returned (canned (call_sig c)).

(** A service that fails on one signature and answers the others. *)
Definition failing_on (sig : Signature) (e : PyExn) : Service :=
  fun _ c => if decide (call_sig c = sig) then Raised e
             else Returned (canned (call_sig c)).

(** A service whose difficulty assessor always answers [level]. *)
Definition assessing (level : string) : Service :=
  fun _ c => Returned (<["assessed_difficulty" := PyStr level]> (canned (call_sig c))).

(** A service whose follow-up generator and difficulty assessor both fail,
    each with an exception of its own. *)
Definition failing_late : Service :=
  fun _ c =>
    match call_sig c with
    | GenerateFollowUp => Raised (Raise "TimeoutError" "follow-up generation")
    | AssessDifficulty => Raised (Raise "RateLimitError" "difficulty assessment")
    | sig => Returned (canned sig)
    end.

(** A service that numbers its answers: the follow-up text is the number of
    calls made before it. *)
Definition numbering : Service :=
  fun log c =>
    Returned (<["followup_questions" := PyStr (pretty (length log))]>
                (canned (call_sig c))).

(** A service that answers every call with the same prediction. *)
Definition answering (p : Prediction) : Service := fun _ _ => Returned p.

(** A service given by a function of the call alone. *)
Definition pure_service (f : Call -> Outcome Prediction) : Service :=
  fun _ c => f c.

(** ** __init__.py *)

Module package.
(** The classes that signatures.py and modules.py define. *)
Definition signatures_classes : list string :=
  ["GenerateQuestion"; "GenerateFollowUp"; "AssessDifficulty";
   "GenerateCodingQuestion"; "GenerateMLQuestion"].

Definition modules_classes : list string :=
  ["QuestionGenerator"; "CodingQuestionGenerator"; "MLQuestionGenerator";
   "FollowUpGenerator"; "InterviewPipeline"; "CompleteInterviewGenerator"].

(** The names of [from .signatures import (...)] and of
    [from .modules import (...)] in __init__.py. *)
Definition from_signatures : list string :=
  ["GenerateQuestion"; "GenerateFollowUp"; "AssessDifficulty"].

Definition from_modules : list string :=
  ["QuestionGenerator"; "FollowUpGenerator"; "InterviewPipeline"].

Definition all : list string :=
  ["GenerateQuestion"; "GenerateFollowUp"; "AssessDifficulty";
   "QuestionGenerator"; "FollowUpGenerator"; "InterviewPipeline"].

(** What the package [interview_generator] has as attributes once
    __init__.py has run: the names every module has, the two submodules that
    the relative imports load, the imported names and [__all__]. *)
Definition attributes : list string :=
  ["__name__"; "__doc__"; "__package__"; "__loader__"; "__spec__";
   "__path__"; "__file__"; "__cached__"; "__builtins__"]
  ++ ["signatures"; "modules"]
  ++ from_signatures ++ from_modules ++ ["__all__"].

(** The files of the package that [from interview_generator import name]
    can still load as a submodule when [name] is not an attribute. *)
Definition submodules : list string := ["signatures"; "modules"].

(** [from interview_generator import n1, n2, ...], once the package has been
    found on the path (line 13 of generate_question.py puts it there): the
    first name that is neither bound in the package nor a submodule raises
    [ImportError].  (The interpreter adds the location of the package to the
    message, and it also answers the names that every module object has,
    such as [__dict__]; neither is modelled.) *)
Definition import_from (names : list string) : Outcome unit :=
  match list_find (fun n => n ∉ attributes ++ submodules) names with
  | Some (_, n) =>
      Raised (Raise "ImportError"
                ("cannot import name '" +:+ n +:+ "' from 'interview_generator'"))
  | None => Returned tt
  end.
End package.

(** ** generate_question.py *)

(** The functions of the script are embedded as they are written, and
    [script] at the end is the file as it is executed.  The script talks to a
    terminal.  What the terminal delivers to one
    [input()] is a line, without its line feed, or Ctrl-C; when nothing is
    left, [input()] raises [EOFError]. *)
Inductive InputEvent : Type :=
  | Line (s : string)
  | Interrupt.

Record World : Type := MkWorld {
  stdin : list InputEvent;
  stdout : list string;
  configured : option (string * string);
  calls : list Call
}.

(** How a function of the script ends: it returns, [sys.exit] was called, or
    an exception escapes it. *)
Inductive Exit (A : Type) : Type :=
  | Done (a : A)
  | SysExit (code : Z)
  | Uncaught (e : PyExn).
Arguments Done {A} a.
Arguments SysExit {A} code.
Arguments Uncaught {A} e.

Definition IO (A : Type) : Type := Service -> World -> World * Exit A.

#[global] Instance IO_ret : MRet IO := fun A a _ w => (w, Done a).

#[global] Instance IO_bind : MBind IO := fun A B k m lm w =>
  match m lm w with
  | (w', Done a) => k a lm w'
  | (w', SysExit code) => (w', SysExit code)
  | (w', Uncaught e) => (w', Uncaught e)
  end.

(** [sys.exit(code)] *)
Definition sys_exit {A} (code : Z) : IO A := fun _ w => (w, SysExit code).

(** An exception that nothing in the script catches. *)
Definition throw {A} (e : PyExn) : IO A := fun _ w => (w, Uncaught e).

(** A call into modules.py: the predictor calls go to the log of the world,
    and an exception of the module escapes. *)
Definition call_module {A} (m : M A) : IO A := fun lm w =>
  match m lm (calls w) with
  | (log, Returned a) =>
      (MkWorld (stdin w) (stdout w) (configured w) log, Done a)
  | (log, Raised e) =>
      (MkWorld (stdin w) (stdout w) (configured w) log, Uncaught e)
  end.

(** [sys.stdout.write(s)] *)
Definition write (s : string) : IO unit := fun _ w =>
  (MkWorld (stdin w) (stdout w ++ [s]) (configured w) (calls w), Done tt).

(** [print(s)] *)
Definition print (s : string) : IO unit := write (s +:+ nl).

(** [s * n] on a string. *)
Fixpoint py_repeat (s : string) (n : nat) : string :=
  match n with
  | O => ""
  | S n' => s +:+ py_repeat s n'
  end.

(** [dspy.configure(lm=dspy.LM(model, api_key=api_key))] *)
Definition dspy_configure (model api_key : string) : IO unit := fun _ w =>
  (MkWorld (stdin w) (stdout w) (Some (model, api_key)) (calls w), Done tt).

Module generate_question.

(** [OPENAI_API_KEY] is what [os.getenv] finds once [load_dotenv()] has
    run. *)
Definition setup_dspy (OPENAI_API_KEY : option string) : IO unit :=
  let api_key := OPENAI_API_KEY in
  if bool_decide (api_key = None \/ api_key = Some "") then
    print "Error: OPENAI_API_KEY not found!" ;;
    print (nl +:+ "Setup instructions:") ;;
    print "1. Copy .env.example to .env" ;;
    print "2. Add your OpenAI API key to .env" ;;
    print "3. Run this script again" ;;
    sys_exit 1
  else
    dspy_configure "openai/gpt-4o-mini" (default "" api_key).

Definition print_banner : IO unit :=
  print (nl +:+ py_repeat "=" 60) ;;
  print "       TECH INTERVIEW QUESTION GENERATOR" ;;
  print (py_repeat "=" 60 +:+ nl).

(** The loop [for i, option in enumerate(options, 1)], from [i] on. *)
Fixpoint print_options (i : nat) (options : list string) : IO unit :=
  match options with
  | [] => mret tt
  | option :: options' =>
      print (pretty i +:+ ". " +:+ option) ;;
      print_options (S i) options'
  end.

Section Builtins.
(** [str.strip] and [int] on a string ([None] when it raises [ValueError])
    are Python's. *)
Variable strip : string -> string.
Variable int : string -> option Z.

(** The loop [while True] of [get_user_choice], on what is left to read and
    what was written. *)
Fixpoint get_user_choice_loop (options : list string)
    (pending : list InputEvent) (out : list string)
  : list InputEvent * list string * Exit string :=
  let out := out ++ [nl +:+ "Enter number: "] in
  match pending with
  | [] => ([], out, Uncaught (Raise "EOFError" "EOF when reading a line"))
  | Interrupt :: rest =>
      (rest, out ++ [nl +:+ "Exiting..." +:+ nl], SysExit 0)
  | Line s :: rest =>
      let choice := strip s in
      match int choice with
      | None => (rest, out ++ [nl +:+ "Exiting..." +:+ nl], SysExit 0)
      | Some n =>
          let idx := (n - 1)%Z in
          if bool_decide (0 <= idx < Z.of_nat (length options))%Z then
            match options !! Z.to_nat idx with
            | Some option => (rest, out, Done option)
            | None =>
                (rest, out,
                 Uncaught (Raise "IndexError" "list index out of range"))
            end
          else
            get_user_choice_loop options rest
              (out ++ ["Invalid choice. Try again." +:+ nl])
      end
  end.

(** The loop, run on the terminal of the world. *)
Definition get_user_choice_while (options : list string) : IO string :=
  fun _ w =>
    let '(rest, out, r) := get_user_choice_loop options (stdin w) (stdout w) in
    (MkWorld rest out (configured w) (calls w), r).

Definition get_user_choice (prompt : string) (options : list string)
  : IO string :=
  print prompt ;;
  print_options 1 options ;;
  get_user_choice_while options.

(** The loop [while True] of [get_text_input]. *)
Fixpoint get_text_input_loop (prompt : string)
    (pending : list InputEvent) (out : list string)
  : list InputEvent * list string * Exit string :=
  let out := out ++ [prompt] in
  match pending with
  | [] => ([], out, Uncaught (Raise "EOFError" "EOF when reading a line"))
  | Interrupt :: rest =>
      (rest, out ++ [nl +:+ "Exiting..." +:+ nl], SysExit 0)
  | Line s :: rest =>
      let value := strip s in
      if bool_decide (value <> "") then (rest, out, Done value)
      else get_text_input_loop prompt rest
             (out ++ ["Please enter a value." +:+ nl])
  end.

Definition get_text_input (prompt : string) : IO string :=
  fun _ w =>
    let '(rest, out, r) := get_text_input_loop prompt (stdin w) (stdout w) in
    (MkWorld rest out (configured w) (calls w), r).

(** [int(s)] where nothing catches its [ValueError]. *)
Definition int_or_raise (s : string) : IO Z :=
  match int s with
  | Some n => mret n
  | None =>
      throw (ValueError
               ("invalid literal for int() with base 10: '" +:+ s +:+ "'"))
  end.

(** [d[key]] on a dictionary. *)
Definition getitem (d : gmap string string) (key : string) : IO string :=
  match d !! key with
  | Some v => mret v
  | None => throw (Raise "KeyError" ("'" +:+ key +:+ "'"))
  end.

Definition generate_question_interactive : IO unit :=
  print_banner ;;
  question_type ←
    get_user_choice "What type of question do you want?"
      ["Coding/Algorithms"; "ML Theory"; "ML Practical"] ;
  let type_mapping : gmap string string :=
    {[ "Coding/Algorithms" := "coding";
       "ML Theory" := "ml_theory";
       "ML Practical" := "ml_practical" ]} in
  question_type ← getitem type_mapping question_type ;
  print (nl +:+ "What topic? (e.g., 'binary trees', 'neural networks', 'gradient descent')") ;;
  topic ← get_text_input "Topic: " ;
  difficulty ←
    get_user_choice (nl +:+ "Difficulty level?") ["easy"; "medium"; "hard"] ;
  choice ←
    get_user_choice (nl +:+ "How many follow-up questions?")
      ["1"; "2"; "3"; "4"] ;
  num_followups ← int_or_raise choice ;
  print (nl +:+ py_repeat "=" 60) ;;
  print "Generating question... (this may take a few seconds)" ;;
  print (py_repeat "=" 60 +:+ nl) ;;
  result ←
    call_module
      (CompleteInterviewGenerator.forward (PyStr topic) (PyStr question_type)
         (PyStr difficulty) (Some (PyInt num_followups))) ;
  print (nl +:+ py_repeat "=" 60) ;;
  print "GENERATED INTERVIEW QUESTION" ;;
  print (py_repeat "=" 60 +:+ nl) ;;
  print ("Topic: " +:+ topic) ;;
  print ("Type: " +:+ question_type) ;;
  print ("Difficulty: " +:+ difficulty +:+ nl) ;;
  print (py_repeat "-" 60) ;;
  print (py_str (CompleteInterviewGenerator.question result)) ;;
  print (py_repeat "-" 60) ;;
  print (nl +:+ "FOLLOW-UP QUESTIONS:") ;;
  print (py_str (CompleteInterviewGenerator.followup_questions result)) ;;
  print (nl +:+ py_repeat "=" 60 +:+ nl).

(** [question_type] defaults to ["coding"], [difficulty] to ["medium"]. *)
Definition generate_question_quick (topic : string)
    (question_type difficulty : option string) : IO unit :=
  let question_type := default "coding" question_type in
  let difficulty := default "medium" difficulty in
  print_banner ;;
  print ("Generating " +:+ difficulty +:+ " " +:+ question_type +:+
         " question on: " +:+ topic +:+ nl) ;;
  result ←
    call_module
      (CompleteInterviewGenerator.forward (PyStr topic) (PyStr question_type)
         (PyStr difficulty) (Some (PyInt 2))) ;
  print (py_repeat "=" 60) ;;
  print (py_str (CompleteInterviewGenerator.question result)) ;;
  print (py_repeat "=" 60) ;;
  print (nl +:+ "Follow-ups:") ;;
  print (py_str (CompleteInterviewGenerator.followup_questions result)) ;;
  print nl.

(** [argv] is [sys.argv]. *)
Definition main (OPENAI_API_KEY : option string) (argv : list string)
  : IO unit :=
  setup_dspy OPENAI_API_KEY ;;
  if bool_decide (1 < length argv) then
    let topic := String.concat " " (drop 1 argv) in
    generate_question_quick topic None None
  else
    generate_question_interactive.

(** The script as [python generate_question.py] runs it: the import of
    line 15, then the functions above are defined and [main()] is called.
    (The imports of [os], [sys], [dspy] and [dotenv] are those of installed
    libraries.) *)
Definition script (OPENAI_API_KEY : option string) (argv : list string)
  : IO unit :=
  match package.import_from ["CompleteInterviewGenerator"; "InterviewPipeline"]
  with
  | Raised e => throw e
  | Returned _ => main OPENAI_API_KEY argv
  end.

End Builtins.
End generate_question.

(** A line that the menu loop answers by asking again: a number outside the
    menu. *)
Definition out_of_menu (strip : string -> string) (int : string -> option Z)
    (options : list string) (ev : InputEvent) : Prop :=
  exists s n,
    ev = Line s /\ int (strip s) = Some n /\
    ~ (1 <= n <= Z.of_nat (length options))%Z.

(** Stand-ins for the two builtins, to run the script on plain input: the
    first removes blanks at both ends, the second reads an unsigned decimal
    numeral.  Python's own accept more (other white space, signs,
    underscores); on the lines used below they agree. *)
Fixpoint lstrip_blanks (s : string) : string :=
  match s with
  | String c s' => if Ascii.eqb c Ascii.Space then lstrip_blanks s' else s
  | EmptyString => s
  end.

Definition strip_blanks (s : string) : string :=
  String.rev (lstrip_blanks (String.rev (lstrip_blanks s))).

Definition digit_value (c : Ascii.ascii) : option Z :=
  let n := Z.of_N (Ascii.N_of_ascii c) in
  if bool_decide (48 <= n <= 57)%Z then Some (n - 48)%Z else None.

Fixpoint decimal_from (acc : Z) (s : string) : option Z :=
  match s with
  | EmptyString => Some acc
  | String c s' =>
      match digit_value c with
      | Some d => decimal_from (10 * acc + d)%Z s'
      | None => None
      end
  end.

Definition decimal_int (s : string) : option Z :=
  match s with
  | EmptyString => None
  | _ => decimal_from 0 s
  end.

(** A terminal with the given input waiting, nothing written, no model
    configured and no call made. *)
Definition terminal (input : list InputEvent) : World :=
  MkWorld input [] None [].

(** ** Laws of the effect *)

Section Laws.
Context {A B : Type}.
Implicit Types (m : M A) (k : A -> M B) (lm : Service) (log : list Call).

Lemma bind_returned m k lm log log1 a :
  m lm log = (log1, Returned a) -> bind m k lm log = k a lm log1.
Proof. intros H. unfold bind. now rewrite H. Qed.

Lemma bind_raised m k lm log log1 e :
  m lm log = (log1, Raised e) -> bind m k lm log = (log1, Raised e).
Proof. intros H. unfold bind. now rewrite H. Qed.

Lemma bind_returned_inv m k lm log log' b :
  bind m k lm log = (log', Returned b) ->
  exists log1 a, m lm log = (log1, Returned a) /\ k a lm log1 = (log', Returned b).
Proof.
  unfold bind. destruct (m lm log) as [log1 [a|e]] eqn:E; intros H.
  - exists log1, a. split; [reflexivity | exact H].
  - discriminate H.
Qed.
End Laws.

Lemma getattr_some (obj : Prediction) name v lm log :
  obj !! name = Some v -> getattr obj name lm log = (log, Returned v).
Proof. intros H. unfold getattr. now rewrite H. Qed.

Lemma getattr_returned_inv (obj : Prediction) name lm log log' v :
  getattr obj name lm log = (log', Returned v) ->
  log' = log /\ obj !! name = Some v.
Proof.
  unfold getattr. destruct (obj !! name) as [w|]; cbn; intros H.
  - inversion H. auto.
  - discriminate H.
Qed.

Lemma getattr_log (obj : Prediction) name lm log : (getattr obj name lm log).1 = log.
Proof. unfold getattr. now destruct (obj !! name). Qed.

Lemma bind_getattr {B} (obj : Prediction) name (k : PyVal -> M B) lm log :
  bind (getattr obj name) k lm log =
  match obj !! name with
  | Some v => k v lm log
  | None =>
      (log, Raised (AttributeError
                      ("'Prediction' object has no attribute '" +:+ name +:+ "'")))
  end.
Proof. unfold bind, getattr. now destruct (obj !! name). Qed.

Lemma bind_ret_r {A} (m : M A) lm log : bind m ret lm log = m lm log.
Proof. unfold bind, ret. now destruct (m lm log) as [log1 [a|e]]. Qed.

(** Each single-stage generator is one call of its predictor. *)
Lemma QuestionGenerator_forward_run topic question_type difficulty lm log :
  QuestionGenerator.forward topic question_type difficulty lm log =
  (log ++ [question_call topic question_type difficulty],
   lm log (question_call topic question_type difficulty)).
Proof. unfold QuestionGenerator.forward. now rewrite bind_ret_r. Qed.

Lemma CodingQuestionGenerator_forward_run topic difficulty lm log :
  CodingQuestionGenerator.forward topic difficulty lm log =
  (log ++ [coding_call topic difficulty], lm log (coding_call topic difficulty)).
Proof. unfold CodingQuestionGenerator.forward. now rewrite bind_ret_r. Qed.

Lemma MLQuestionGenerator_forward_run topic difficulty question_style lm log :
  MLQuestionGenerator.forward topic difficulty question_style lm log =
  (log ++ [ml_call topic difficulty (default (PyStr "mixed") question_style)],
   lm log (ml_call topic difficulty (default (PyStr "mixed") question_style))).
Proof. unfold MLQuestionGenerator.forward. now rewrite bind_ret_r. Qed.

Lemma FollowUpGenerator_forward_run original_question topic num_followups lm log :
  FollowUpGenerator.forward original_question topic num_followups lm log =
  (log ++ [followup_call original_question topic (default (PyInt 3) num_followups)],
   lm log (followup_call original_question topic (default (PyInt 3) num_followups))).
Proof. unfold FollowUpGenerator.forward. now rewrite bind_ret_r. Qed.

Lemma difficulty_assessor_run question topic lm log :
  InterviewPipeline.difficulty_assessor question topic lm log =
  (log ++ [assess_call question topic], lm log (assess_call question topic)).
Proof. reflexivity. Qed.

(** ** Successful runs, stage by stage *)

Lemma ret_returned_inv {A} (a b : A) lm log log' :
  ret a lm log = (log', Returned b) -> log' = log /\ b = a.
Proof. unfold ret. intros H. inversion H. auto. Qed.

Ltac invert_run :=
  repeat match goal with
    | H : bind _ _ _ _ = (_, Returned _) |- _ =>
        apply bind_returned_inv in H as (? & ? & ? & H)
    | H : getattr _ _ _ _ = (_, Returned _) |- _ =>
        apply getattr_returned_inv in H as [-> H]
    | H : ret _ _ _ = (_, Returned _) |- _ =>
        apply ret_returned_inv in H as [? ?]; simplify_eq
    | H : QuestionGenerator.forward _ _ _ _ _ = _ |- _ =>
        rewrite QuestionGenerator_forward_run in H
    | H : CodingQuestionGenerator.forward _ _ _ _ = _ |- _ =>
        rewrite CodingQuestionGenerator_forward_run in H
    | H : MLQuestionGenerator.forward _ _ _ _ _ = _ |- _ =>
        rewrite MLQuestionGenerator_forward_run in H
    | H : FollowUpGenerator.forward _ _ _ _ _ = _ |- _ =>
        rewrite FollowUpGenerator_forward_run in H
    | H : InterviewPipeline.difficulty_assessor _ _ _ _ = _ |- _ =>
        rewrite difficulty_assessor_run in H
    | H : (_ ++ [_], _) = (_, Returned _) |- _ =>
        apply pair_equal_spec in H as [<- H]
    end.

(** A run of [InterviewPipeline.forward] returns exactly when the three
    predictors answer in turn and the five attributes read from their answers
    are there. *)
Lemma InterviewPipeline_forward_returned_iff
    topic question_type difficulty num_followups lm log log' r :
  InterviewPipeline.forward topic question_type difficulty num_followups lm log
    = (log', Returned r) <->
  exists (question_result followup_result difficulty_result : Prediction)
         q expl fq ad reas,
    let c1 := question_call topic question_type difficulty in
    let c2 := followup_call q topic (default (PyInt 3) num_followups) in
    let c3 := assess_call q topic in
    lm log c1 = Returned question_result /\
    question_result !! "question" = Some q /\
    question_result !! "explanation" = Some expl /\
    lm (log ++ [c1]) c2 = Returned followup_result /\
    followup_result !! "followup_questions" = Some fq /\
    lm (log ++ [c1; c2]) c3 = Returned difficulty_result /\
    difficulty_result !! "assessed_difficulty" = Some ad /\
    difficulty_result !! "reasoning" = Some reas /\
    log' = log ++ [c1; c2; c3] /\
    r = InterviewPipeline.MkResult q expl difficulty ad reas fq.
Proof.
  cbv zeta. split.
  - intros H. unfold InterviewPipeline.forward in H. cbv zeta in H.
    invert_run. simplify_eq.
    repeat match goal with H : context [(_ ++ [_]) ++ [_]] |- _ =>
      rewrite <- app_assoc in H; simpl in H end.
    do 8 eexists. repeat split; try eassumption.
    now rewrite <- !app_assoc.
  - intros (qr & fr & dr & q & expl & fq & ad & reas &
            H1 & Hq & He & H2 & Hf & H3 & Ha & Hr & -> & ->).
    unfold InterviewPipeline.forward. cbv zeta.
    unfold bind at 1. rewrite QuestionGenerator_forward_run, H1.
    rewrite (bind_returned _ _ _ _ _ _ (getattr_some _ _ _ _ _ Hq)).
    unfold bind at 1. rewrite FollowUpGenerator_forward_run.
    simpl (default _ (Some _)).
    rewrite H2.
    rewrite (bind_returned _ _ _ _ _ _ (getattr_some _ _ _ _ _ Hq)).
    unfold bind at 1. rewrite difficulty_assessor_run.
    rewrite <- app_assoc. cbn [app]. rewrite H3.
    rewrite (bind_returned _ _ _ _ _ _ (getattr_some _ _ _ _ _ Hq)).
    rewrite (bind_returned _ _ _ _ _ _ (getattr_some _ _ _ _ _ He)).
    rewrite (bind_returned _ _ _ _ _ _ (getattr_some _ _ _ _ _ Ha)).
    rewrite (bind_returned _ _ _ _ _ _ (getattr_some _ _ _ _ _ Hr)).
    rewrite (bind_returned _ _ _ _ _ _ (getattr_some _ _ _ _ _ Hf)).
    unfold ret. now rewrite <- app_assoc.
Qed.

(** The three branches of the dispatch. *)
Lemma dispatch_coding_returned_iff topic difficulty lm log log1 main_question result :
  CompleteInterviewGenerator.dispatch topic (PyStr "coding") difficulty lm log
    = (log1, Returned (main_question, result)) <->
  exists title description input output constraints example,
    lm log (coding_call topic difficulty) = Returned result /\
    result !! "question_title" = Some title /\
    result !! "question_description" = Some description /\
    result !! "input_format" = Some input /\
    result !! "output_format" = Some output /\
    result !! "constraints" = Some constraints /\
    result !! "example" = Some example /\
    log1 = log ++ [coding_call topic difficulty] /\
    main_question =
      PyStr (coding_text title description input output constraints example).
Proof.
  unfold CompleteInterviewGenerator.dispatch.
  change (py_eq (PyStr "coding") (PyStr "coding")) with true. cbv iota zeta.
  split.
  - intros H. invert_run. simplify_eq.
    do 6 eexists. repeat split; try eassumption.
  - intros (t & d & i & o & c & e & H1 & Ht & Hd & Hi & Ho & Hc & He & -> & ->).
    unfold bind at 1. rewrite CodingQuestionGenerator_forward_run, H1.
    rewrite (bind_returned _ _ _ _ _ _ (getattr_some _ _ _ _ _ Ht)).
    rewrite (bind_returned _ _ _ _ _ _ (getattr_some _ _ _ _ _ Hd)).
    rewrite (bind_returned _ _ _ _ _ _ (getattr_some _ _ _ _ _ Hi)).
    rewrite (bind_returned _ _ _ _ _ _ (getattr_some _ _ _ _ _ Ho)).
    rewrite (bind_returned _ _ _ _ _ _ (getattr_some _ _ _ _ _ Hc)).
    rewrite (bind_returned _ _ _ _ _ _ (getattr_some _ _ _ _ _ He)).
    reflexivity.
Qed.

Lemma dispatch_ml_returned_iff topic question_type style difficulty lm log log1
    main_question result :
  (question_type = "ml_theory" /\ style = "theoretical") \/
  (question_type = "ml_practical" /\ style = "practical") ->
  CompleteInterviewGenerator.dispatch topic (PyStr question_type) difficulty lm log
    = (log1, Returned (main_question, result)) <->
  lm log (ml_call topic difficulty (PyStr style)) = Returned result /\
  result !! "question" = Some main_question /\
  log1 = log ++ [ml_call topic difficulty (PyStr style)].
Proof.
  intros [[-> ->] | [-> ->]]; unfold CompleteInterviewGenerator.dispatch.
  - change (py_eq (PyStr "ml_theory") (PyStr "coding")) with false.
    change (py_eq (PyStr "ml_theory") (PyStr "ml_theory")) with true.
    cbv iota. split.
    + intros H. invert_run. simplify_eq. auto.
    + intros (H1 & Hq & ->).
      unfold bind at 1. rewrite MLQuestionGenerator_forward_run.
      simpl (default _ (Some _)). rewrite H1.
      now rewrite (bind_returned _ _ _ _ _ _ (getattr_some _ _ _ _ _ Hq)).
  - change (py_eq (PyStr "ml_practical") (PyStr "coding")) with false.
    change (py_eq (PyStr "ml_practical") (PyStr "ml_theory")) with false.
    change (py_eq (PyStr "ml_practical") (PyStr "ml_practical")) with true.
    cbv iota. split.
    + intros H. invert_run. simplify_eq. auto.
    + intros (H1 & Hq & ->).
      unfold bind at 1. rewrite MLQuestionGenerator_forward_run.
      simpl (default _ (Some _)). rewrite H1.
      now rewrite (bind_returned _ _ _ _ _ _ (getattr_some _ _ _ _ _ Hq)).
Qed.

Lemma py_eq_false a b : a <> b -> py_eq a b = false.
Proof. intros H. unfold py_eq. now apply bool_decide_eq_false. Qed.

Lemma dispatch_unknown topic question_type difficulty lm log :
  question_type <> PyStr "coding" ->
  question_type <> PyStr "ml_theory" ->
  question_type <> PyStr "ml_practical" ->
  CompleteInterviewGenerator.dispatch topic question_type difficulty lm log =
  (log, Raised (ValueError ("Unknown question type: " +:+ py_str question_type))).
Proof.
  intros H1 H2 H3. unfold CompleteInterviewGenerator.dispatch.
  now rewrite !py_eq_false by assumption.
Qed.

(** After the dispatch, one follow-up call and one attribute read. *)
Lemma CompleteInterviewGenerator_forward_returned_iff
    topic question_type difficulty num_followups lm log log' r :
  CompleteInterviewGenerator.forward topic question_type difficulty
    num_followups lm log = (log', Returned r) <->
  exists log1 main_question result (followup_result : Prediction) fq,
    let c2 := followup_call main_question topic (default (PyInt 3) num_followups) in
    CompleteInterviewGenerator.dispatch topic question_type difficulty lm log
      = (log1, Returned (main_question, result)) /\
    lm log1 c2 = Returned followup_result /\
    followup_result !! "followup_questions" = Some fq /\
    log' = log1 ++ [c2] /\
    r = CompleteInterviewGenerator.MkResult main_question result difficulty fq.
Proof.
  cbv zeta. unfold CompleteInterviewGenerator.forward. cbv zeta. split.
  - intros H. apply bind_returned_inv in H as (log1 & [mq res] & Hd & H).
    invert_run. simplify_eq.
    exists log1, mq, res. do 2 eexists. repeat split; eassumption.
  - intros (log1 & mq & res & fr & fq & Hd & H2 & Hf & -> & ->).
    rewrite (bind_returned _ _ _ _ _ _ Hd).
    unfold bind at 1. rewrite FollowUpGenerator_forward_run.
    simpl (default _ (Some _)). rewrite H2.
    now rewrite (bind_returned _ _ _ _ _ _ (getattr_some _ _ _ _ _ Hf)).
Qed.

(** ** The dispatch on [question_type] *)

(** C1. For every [question_type] other than ["coding"], ["ml_theory"] and
    ["ml_practical"], [CompleteInterviewGenerator.forward] raises the
    [ValueError] whose message ends with the rejected type, and the log of
    calls is the one it started from: no coding, ML or follow-up generator was
    invoked. *)
Theorem C1_unknown_type_raises_before_any_call
    topic question_type difficulty num_followups lm log :
  question_type <> PyStr "coding" ->
  question_type <> PyStr "ml_theory" ->
  question_type <> PyStr "ml_practical" ->
  CompleteInterviewGenerator.forward topic question_type difficulty
    num_followups lm log =
  (log, Raised (ValueError ("Unknown question type: " +:+ py_str question_type))).
Proof.
  intros H1 H2 H3. unfold CompleteInterviewGenerator.forward. cbv zeta.
  apply bind_raised. now apply dispatch_unknown.
Qed.

Lemma C1_witness_system_design :
  (PyStr "system_design" <> PyStr "coding" /\
   PyStr "system_design" <> PyStr "ml_theory" /\
   PyStr "system_design" <> PyStr "ml_practical") /\
  CompleteInterviewGenerator.forward (PyStr "caching") (PyStr "system_design")
    (PyStr "hard") (Some (PyInt 2)) canned_service [] =
  ([], Raised (ValueError "Unknown question type: system_design")).
Proof.
  split; [repeat split; discriminate |].
  apply (C1_unknown_type_raises_before_any_call
           (PyStr "caching") (PyStr "system_design") (PyStr "hard")
           (Some (PyInt 2)) canned_service []); discriminate.
Defined.

(** ** InterviewPipeline *)

(** C4. If the question generator raises, [InterviewPipeline.forward] raises
    the same exception with the same log, and that log has grown by the
    question call alone: neither the follow-up generator nor the difficulty
    assessor was called, and no result dictionary was built. *)
Theorem C4_question_stage_failure_aborts
    topic question_type difficulty num_followups lm log log1 e :
  QuestionGenerator.forward topic question_type difficulty lm log
    = (log1, Raised e) ->
  InterviewPipeline.forward topic question_type difficulty num_followups lm log
    = (log1, Raised e) /\
  log1 = log ++ [question_call topic question_type difficulty].
Proof.
  intros H. split.
  - unfold InterviewPipeline.forward. cbv zeta. now apply bind_raised.
  - rewrite QuestionGenerator_forward_run in H. now inversion H.
Qed.

Lemma C4_witness_service_down :
  let e := Raise "RuntimeError" "service unavailable" in
  let lm := failing_on GenerateQuestion e in
  let c1 := question_call (PyStr "binary trees") (PyStr "coding") (PyStr "easy") in
  QuestionGenerator.forward (PyStr "binary trees") (PyStr "coding")
    (PyStr "easy") lm [] = ([c1], Raised e) /\
  InterviewPipeline.forward (PyStr "binary trees") (PyStr "coding")
    (PyStr "easy") None lm [] = ([c1], Raised e) /\
  [c1] = [] ++ [c1].
Proof.
  cbv zeta. split; [reflexivity |].
  apply (C4_question_stage_failure_aborts
           (PyStr "binary trees") (PyStr "coding") (PyStr "easy") None
           (failing_on GenerateQuestion (Raise "RuntimeError" "service unavailable"))
           []).
  reflexivity.
Defined.

(** C6. [InterviewPipeline.forward] returns exactly when its three stages
    succeed in the order question generation, follow-up generation, difficulty
    assessment: the log grows by these three calls in this order, the
    [question] attribute of the first answer is the [original_question] of the
    second call and the [question] of the third, and the result is the five
    attributes read from the three answers together with the requested
    difficulty. *)
Theorem C6_stages_in_order_and_merge
    topic question_type difficulty num_followups lm log log' r :
  InterviewPipeline.forward topic question_type difficulty num_followups lm log
    = (log', Returned r) <->
  exists (question_result followup_result difficulty_result : Prediction)
         q expl fq ad reas,
    let c1 := MkCall GenerateQuestion
                [("topic", topic); ("question_type", question_type);
                 ("difficulty", difficulty)] in
    let c2 := MkCall GenerateFollowUp
                [("original_question", q); ("topic", topic);
                 ("num_followups", default (PyInt 3) num_followups)] in
    let c3 := MkCall AssessDifficulty [("question", q); ("topic", topic)] in
    lm log c1 = Returned question_result /\
    question_result !! "question" = Some q /\
    question_result !! "explanation" = Some expl /\
    lm (log ++ [c1]) c2 = Returned followup_result /\
    followup_result !! "followup_questions" = Some fq /\
    lm (log ++ [c1; c2]) c3 = Returned difficulty_result /\
    difficulty_result !! "assessed_difficulty" = Some ad /\
    difficulty_result !! "reasoning" = Some reas /\
    log' = log ++ [c1; c2; c3] /\
    r = {| InterviewPipeline.question := q;
           InterviewPipeline.explanation := expl;
           InterviewPipeline.requested_difficulty := difficulty;
           InterviewPipeline.assessed_difficulty := ad;
           InterviewPipeline.difficulty_reasoning := reas;
           InterviewPipeline.followup_questions := fq |}.
Proof. apply InterviewPipeline_forward_returned_iff. Qed.

Lemma C6_witness_three_calls :
  exists log' r,
    InterviewPipeline.forward (PyStr "binary search trees") (PyStr "coding")
      (PyStr "medium") (Some (PyInt 2)) canned_service [] = (log', Returned r) /\
    log' =
      [MkCall GenerateQuestion
         [("topic", PyStr "binary search trees");
          ("question_type", PyStr "coding"); ("difficulty", PyStr "medium")];
       MkCall GenerateFollowUp
         [("original_question", PyStr "<question>");
          ("topic", PyStr "binary search trees"); ("num_followups", PyInt 2)];
       MkCall AssessDifficulty
         [("question", PyStr "<question>");
          ("topic", PyStr "binary search trees")]] /\
    r = {| InterviewPipeline.question := PyStr "<question>";
           InterviewPipeline.explanation := PyStr "<explanation>";
           InterviewPipeline.requested_difficulty := PyStr "medium";
           InterviewPipeline.assessed_difficulty := PyStr "<assessed_difficulty>";
           InterviewPipeline.difficulty_reasoning := PyStr "<reasoning>";
           InterviewPipeline.followup_questions := PyStr "<followup_questions>" |}.
Proof.
  do 2 eexists. split; [| split; reflexivity].
  apply (proj2 (C6_stages_in_order_and_merge
                  (PyStr "binary search trees") (PyStr "coding")
                  (PyStr "medium") (Some (PyInt 2)) canned_service [] _ _)).
  exists (canned GenerateQuestion), (canned GenerateFollowUp),
         (canned AssessDifficulty),
         (PyStr "<question>"), (PyStr "<explanation>"),
         (PyStr "<followup_questions>"), (PyStr "<assessed_difficulty>"),
         (PyStr "<reasoning>").
  cbv zeta. repeat split; vm_compute; reflexivity.
Defined.

(** C5. On every run of [InterviewPipeline.forward] that returns, the
    [requested_difficulty] of the result is the [difficulty] argument itself,
    and the [assessed_difficulty] is the attribute of that name in the answer
    to the last call, which went to the difficulty assessor.  The two can
    differ: there is a run that returns with different values in them. *)
Theorem C5_requested_difficulty_unchanged :
  (forall topic question_type difficulty num_followups lm log log' r,
     InterviewPipeline.forward topic question_type difficulty num_followups
       lm log = (log', Returned r) ->
     InterviewPipeline.requested_difficulty r = difficulty /\
     exists before c3 (difficulty_result : Prediction),
       log' = before ++ [c3] /\
       call_sig c3 = AssessDifficulty /\
       lm before c3 = Returned difficulty_result /\
       difficulty_result !! "assessed_difficulty"
         = Some (InterviewPipeline.assessed_difficulty r)) /\
  (exists topic question_type difficulty num_followups lm log log' r,
     InterviewPipeline.forward topic question_type difficulty num_followups
       lm log = (log', Returned r) /\
     InterviewPipeline.assessed_difficulty r
       <> InterviewPipeline.requested_difficulty r).
Proof.
  split.
  - intros topic question_type difficulty num_followups lm log log' r H.
    apply InterviewPipeline_forward_returned_iff in H
      as (qr & fr & dr & q & expl & fq & ad & reas &
          H1 & Hq & He & H2 & Hf & H3 & Ha & Hr & -> & ->).
    split; [reflexivity |].
    exists (log ++ [question_call topic question_type difficulty;
                    followup_call q topic (default (PyInt 3) num_followups)]),
           (assess_call q topic), dr.
    repeat split; try assumption.
    now rewrite <- app_assoc.
  - exists (PyStr "dynamic programming"), (PyStr "coding"), (PyStr "hard"), None,
           (assessing "easy"), [].
    do 2 eexists. split; [vm_compute; reflexivity | discriminate].
Qed.

Lemma C5_witness_hard_assessed_easy :
  exists log' r,
    InterviewPipeline.forward (PyStr "dynamic programming") (PyStr "coding")
      (PyStr "hard") None (assessing "easy") [] = (log', Returned r) /\
    InterviewPipeline.requested_difficulty r = PyStr "hard" /\
    InterviewPipeline.assessed_difficulty r = PyStr "easy".
Proof.
  do 2 eexists. split; [vm_compute; reflexivity |].
  split.
  - refine (proj1 (proj1 C5_requested_difficulty_unchanged
                     (PyStr "dynamic programming") (PyStr "coding")
                     (PyStr "hard") None (assessing "easy") [] _ _ _)).
    vm_compute; reflexivity.
  - reflexivity.
Defined.

(** ** CompleteInterviewGenerator *)

(** C10. On every run of [CompleteInterviewGenerator.forward] that returns,
    whichever branch was taken, the [difficulty] of the result is the
    [difficulty] argument itself. *)
Theorem C10_difficulty_field_unchanged
    topic question_type difficulty num_followups lm log log' r :
  CompleteInterviewGenerator.forward topic question_type difficulty
    num_followups lm log = (log', Returned r) ->
  CompleteInterviewGenerator.difficulty r = difficulty.
Proof.
  intros H. apply CompleteInterviewGenerator_forward_returned_iff in H
    as (log1 & mq & res & fr & fq & _ & _ & _ & _ & ->).
  reflexivity.
Qed.

Lemma C10_witness_ml_theory :
  let r := {| CompleteInterviewGenerator.question := PyStr "<question>";
              CompleteInterviewGenerator.details := canned GenerateMLQuestion;
              CompleteInterviewGenerator.difficulty := PyStr "medium";
              CompleteInterviewGenerator.followup_questions :=
                PyStr "<followup_questions>" |} in
  let log' := [ml_call (PyStr "gradient descent") (PyStr "medium")
                 (PyStr "theoretical");
               followup_call (PyStr "<question>") (PyStr "gradient descent")
                 (PyInt 3)] in
  CompleteInterviewGenerator.forward (PyStr "gradient descent")
    (PyStr "ml_theory") (PyStr "medium") None canned_service []
    = (log', Returned r) /\
  CompleteInterviewGenerator.difficulty r = PyStr "medium".
Proof.
  cbv zeta. split; [vm_compute; reflexivity |].
  refine (C10_difficulty_field_unchanged (PyStr "gradient descent")
            (PyStr "ml_theory") (PyStr "medium") None canned_service [] _ _ _).
  vm_compute; reflexivity.
Defined.

(** C3. With [question_type = "coding"], [CompleteInterviewGenerator.forward]
    returns exactly when the coding generator answers with the six attributes
    and the follow-up generator answers with its one; [main_question] is then
    the six attributes printed in the order title, description, input format,
    output format, constraints, example, with the template's labels and line
    feeds between them, and it is both the [original_question] of the
    follow-up call and the [question] of the result. *)
Theorem C3_coding_question_template
    topic difficulty num_followups lm log log' r :
  CompleteInterviewGenerator.forward topic (PyStr "coding") difficulty
    num_followups lm log = (log', Returned r) <->
  exists (result followup_result : Prediction)
         title description input output constraints example fq,
    let main_question :=
      PyStr (py_str title +:+ nl +:+ nl +:+
             py_str description +:+ nl +:+ nl +:+
             "Input: " +:+ py_str input +:+ nl +:+
             "Output: " +:+ py_str output +:+ nl +:+ nl +:+
             "Constraints: " +:+ py_str constraints +:+ nl +:+ nl +:+
             "Example:" +:+ nl +:+ py_str example) in
    let c1 := MkCall GenerateCodingQuestion
                [("topic", topic); ("difficulty", difficulty)] in
    let c2 := MkCall GenerateFollowUp
                [("original_question", main_question); ("topic", topic);
                 ("num_followups", default (PyInt 3) num_followups)] in
    lm log c1 = Returned result /\
    result !! "question_title" = Some title /\
    result !! "question_description" = Some description /\
    result !! "input_format" = Some input /\
    result !! "output_format" = Some output /\
    result !! "constraints" = Some constraints /\
    result !! "example" = Some example /\
    lm (log ++ [c1]) c2 = Returned followup_result /\
    followup_result !! "followup_questions" = Some fq /\
    log' = log ++ [c1; c2] /\
    r = {| CompleteInterviewGenerator.question := main_question;
           CompleteInterviewGenerator.details := result;
           CompleteInterviewGenerator.difficulty := difficulty;
           CompleteInterviewGenerator.followup_questions := fq |}.
Proof.
  cbv zeta. rewrite CompleteInterviewGenerator_forward_returned_iff. split.
  - intros (log1 & mq & res & fr & fq & Hd & H2 & Hf & -> & ->).
    apply dispatch_coding_returned_iff in Hd
      as (t & d & i & o & c & e & H1 & Ht & Hd & Hi & Ho & Hc & He & -> & ->).
    exists res, fr, t, d, i, o, c, e, fq.
    repeat split; try assumption. now rewrite <- app_assoc.
  - intros (res & fr & t & d & i & o & c & e & fq &
            H1 & Ht & Hd & Hi & Ho & Hc & He & H2 & Hf & -> & ->).
    exists (log ++ [coding_call topic difficulty]),
           (PyStr (coding_text t d i o c e)), res, fr, fq.
    cbv zeta. repeat split; try assumption.
    + apply dispatch_coding_returned_iff.
      exists t, d, i, o, c, e. repeat split; assumption.
    + now rewrite <- app_assoc.
Qed.

Lemma C3_witness_graph_algorithms :
  let main_question :=
    PyStr ("<question_title>" +:+ nl +:+ nl +:+
           "<question_description>" +:+ nl +:+ nl +:+
           "Input: <input_format>" +:+ nl +:+
           "Output: <output_format>" +:+ nl +:+ nl +:+
           "Constraints: <constraints>" +:+ nl +:+ nl +:+
           "Example:" +:+ nl +:+ "<example>") in
  CompleteInterviewGenerator.forward (PyStr "graph algorithms") (PyStr "coding")
    (PyStr "hard") (Some (PyInt 3)) canned_service [] =
  ([MkCall GenerateCodingQuestion
      [("topic", PyStr "graph algorithms"); ("difficulty", PyStr "hard")];
    MkCall GenerateFollowUp
      [("original_question", main_question);
       ("topic", PyStr "graph algorithms"); ("num_followups", PyInt 3)]],
   Returned
     {| CompleteInterviewGenerator.question := main_question;
        CompleteInterviewGenerator.details := canned GenerateCodingQuestion;
        CompleteInterviewGenerator.difficulty := PyStr "hard";
        CompleteInterviewGenerator.followup_questions :=
          PyStr "<followup_questions>" |}).
Proof.
  cbv zeta.
  apply (proj2 (C3_coding_question_template (PyStr "graph algorithms")
                  (PyStr "hard") (Some (PyInt 3)) canned_service [] _ _)).
  exists (canned GenerateCodingQuestion), (canned GenerateFollowUp),
         (PyStr "<question_title>"), (PyStr "<question_description>"),
         (PyStr "<input_format>"), (PyStr "<output_format>"),
         (PyStr "<constraints>"), (PyStr "<example>"),
         (PyStr "<followup_questions>").
  cbv zeta. repeat split; vm_compute; reflexivity.
Defined.

(** In the two ML branches the first call of the run goes to the ML
    generator, whatever happens afterwards. *)
Lemma ml_branch_calls_generator_first
    question_type style topic difficulty num_followups lm log :
  (question_type = "ml_theory" /\ style = "theoretical") \/
  (question_type = "ml_practical" /\ style = "practical") ->
  exists rest,
    (CompleteInterviewGenerator.forward topic (PyStr question_type) difficulty
       num_followups lm log).1
    = log ++ ml_call topic difficulty (PyStr style) :: rest.
Proof.
  intros [[-> ->] | [-> ->]];
    unfold CompleteInterviewGenerator.forward,
           CompleteInterviewGenerator.dispatch; cbv zeta.
  - change (py_eq (PyStr "ml_theory") (PyStr "coding")) with false.
    change (py_eq (PyStr "ml_theory") (PyStr "ml_theory")) with true.
    cbv iota.
    unfold MLQuestionGenerator.forward, FollowUpGenerator.forward,
           ChainOfThought, getattr, ml_call, bind, ret, raise.
    repeat case_match; simplify_eq; cbn; rewrite <- ?app_assoc;
      eexists; reflexivity.
  - change (py_eq (PyStr "ml_practical") (PyStr "coding")) with false.
    change (py_eq (PyStr "ml_practical") (PyStr "ml_theory")) with false.
    change (py_eq (PyStr "ml_practical") (PyStr "ml_practical")) with true.
    cbv iota.
    unfold MLQuestionGenerator.forward, FollowUpGenerator.forward,
           ChainOfThought, getattr, ml_call, bind, ret, raise.
    repeat case_match; simplify_eq; cbn; rewrite <- ?app_assoc;
      eexists; reflexivity.
Qed.

(** C7. With [question_type = "ml_theory"] the ML generator is called with
    [question_style = "theoretical"], with ["ml_practical"] it is called with
    ["practical"].  In both cases [forward] returns exactly when that call and
    the follow-up call are answered with the attributes read from them;
    [main_question] is then the [question] attribute of the ML answer, and the
    ML answer as a whole is the [details] of the result. *)
Theorem C7_ml_branches
    question_type style topic difficulty num_followups lm log log' r :
  (question_type = "ml_theory" /\ style = "theoretical") \/
  (question_type = "ml_practical" /\ style = "practical") ->
  let c1 := MkCall GenerateMLQuestion
              [("topic", topic); ("difficulty", difficulty);
               ("question_style", PyStr style)] in
  (exists rest,
     (CompleteInterviewGenerator.forward topic (PyStr question_type) difficulty
        num_followups lm log).1 = log ++ c1 :: rest) /\
  (CompleteInterviewGenerator.forward topic (PyStr question_type) difficulty
    num_followups lm log = (log', Returned r) <->
  exists (ml_result followup_result : Prediction) main_question fq,
    let c2 := MkCall GenerateFollowUp
                [("original_question", main_question); ("topic", topic);
                 ("num_followups", default (PyInt 3) num_followups)] in
    lm log c1 = Returned ml_result /\
    ml_result !! "question" = Some main_question /\
    lm (log ++ [c1]) c2 = Returned followup_result /\
    followup_result !! "followup_questions" = Some fq /\
    log' = log ++ [c1; c2] /\
    r = {| CompleteInterviewGenerator.question := main_question;
           CompleteInterviewGenerator.details := ml_result;
           CompleteInterviewGenerator.difficulty := difficulty;
           CompleteInterviewGenerator.followup_questions := fq |}).
Proof.
  intros Hstyle. cbv zeta. split.
  { apply ml_branch_calls_generator_first, Hstyle. }
  rewrite CompleteInterviewGenerator_forward_returned_iff. split.
  - intros (log1 & mq & res & fr & fq & Hd & H2 & Hf & -> & ->).
    apply (dispatch_ml_returned_iff _ _ _ _ _ _ _ _ _ Hstyle) in Hd
      as (H1 & Hq & ->).
    exists res, fr, mq, fq. repeat split; try assumption.
    now rewrite <- app_assoc.
  - intros (res & fr & mq & fq & H1 & Hq & H2 & Hf & -> & ->).
    exists (log ++ [ml_call topic difficulty (PyStr style)]), mq, res, fr, fq.
    cbv zeta. repeat split; try assumption.
    + now apply (dispatch_ml_returned_iff _ _ _ _ _ _ _ _ _ Hstyle).
    + now rewrite <- app_assoc.
Qed.

Lemma C7_witness_theory_and_practical :
  ("ml_theory" = "ml_theory" /\ "theoretical" = "theoretical") /\
  ("ml_practical" = "ml_practical" /\ "practical" = "practical") /\
  CompleteInterviewGenerator.forward (PyStr "overfitting") (PyStr "ml_theory")
    (PyStr "easy") None canned_service [] =
  ([MkCall GenerateMLQuestion
      [("topic", PyStr "overfitting"); ("difficulty", PyStr "easy");
       ("question_style", PyStr "theoretical")];
    MkCall GenerateFollowUp
      [("original_question", PyStr "<question>");
       ("topic", PyStr "overfitting"); ("num_followups", PyInt 3)]],
   Returned
     {| CompleteInterviewGenerator.question := PyStr "<question>";
        CompleteInterviewGenerator.details := canned GenerateMLQuestion;
        CompleteInterviewGenerator.difficulty := PyStr "easy";
        CompleteInterviewGenerator.followup_questions :=
          PyStr "<followup_questions>" |}) /\
  CompleteInterviewGenerator.forward (PyStr "overfitting") (PyStr "ml_practical")
    (PyStr "easy") (Some (PyInt 1)) canned_service [] =
  ([MkCall GenerateMLQuestion
      [("topic", PyStr "overfitting"); ("difficulty", PyStr "easy");
       ("question_style", PyStr "practical")];
    MkCall GenerateFollowUp
      [("original_question", PyStr "<question>");
       ("topic", PyStr "overfitting"); ("num_followups", PyInt 1)]],
   Returned
     {| CompleteInterviewGenerator.question := PyStr "<question>";
        CompleteInterviewGenerator.details := canned GenerateMLQuestion;
        CompleteInterviewGenerator.difficulty := PyStr "easy";
        CompleteInterviewGenerator.followup_questions :=
          PyStr "<followup_questions>" |}).
Proof.
  split; [split; reflexivity |]. split; [split; reflexivity |]. split.
  - apply (proj2 (C7_ml_branches "ml_theory" "theoretical" (PyStr "overfitting")
                    (PyStr "easy") None canned_service [] _ _
                    (or_introl (conj eq_refl eq_refl)))).
    exists (canned GenerateMLQuestion), (canned GenerateFollowUp),
           (PyStr "<question>"), (PyStr "<followup_questions>").
    cbv zeta. repeat split; vm_compute; reflexivity.
  - apply (proj2 (C7_ml_branches "ml_practical" "practical" (PyStr "overfitting")
                    (PyStr "easy") (Some (PyInt 1)) canned_service [] _ _
                    (or_intror (conj eq_refl eq_refl)))).
    exists (canned GenerateMLQuestion), (canned GenerateFollowUp),
           (PyStr "<question>"), (PyStr "<followup_questions>").
    cbv zeta. repeat split; vm_compute; reflexivity.
Defined.

(** ** Swapping the two later stages of the pipeline *)

(** C8. When the service is a function of the call alone, running the
    difficulty assessment before the follow-up generation gives the same
    result dictionary as [InterviewPipeline.forward], and no result exactly
    when [forward] gives none.  When moreover the service never fails, the
    whole outcome is the same, raised attribute errors included. *)
Theorem C8_swapped_stages_same_result
    topic question_type difficulty num_followups log :
  (forall f : Call -> Outcome Prediction,
     result_of (InterviewPipeline_forward_assess_first topic question_type
                  difficulty num_followups (pure_service f) log)
     = result_of (InterviewPipeline.forward topic question_type difficulty
                    num_followups (pure_service f) log)) /\
  (forall g : Call -> Prediction,
     (InterviewPipeline_forward_assess_first topic question_type difficulty
        num_followups (pure_service (fun c => Returned (g c))) log).2
     = (InterviewPipeline.forward topic question_type difficulty
          num_followups (pure_service (fun c => Returned (g c))) log).2).
Proof.
  split.
  - intros f.
    unfold result_of, InterviewPipeline_forward_assess_first,
      InterviewPipeline.forward, InterviewPipeline.difficulty_assessor,
      QuestionGenerator.forward, FollowUpGenerator.forward,
      ChainOfThought, getattr, pure_service, bind, ret, raise.
    cbn.
    destruct (f (MkCall GenerateQuestion _)) as [qr | e]; [| reflexivity].
    destruct (qr !! "question") as [q |]; [| reflexivity]. cbn.
    destruct (f (MkCall AssessDifficulty _)) as [dr | e1];
      destruct (f (MkCall GenerateFollowUp _)) as [fr | e2]; cbn;
      try reflexivity.
    destruct (qr !! "explanation"); [| reflexivity].
    destruct (dr !! "assessed_difficulty"); [| reflexivity].
    destruct (dr !! "reasoning"); [| reflexivity].
    destruct (fr !! "followup_questions"); reflexivity.
  - intros g.
    unfold InterviewPipeline_forward_assess_first,
      InterviewPipeline.forward, InterviewPipeline.difficulty_assessor,
      QuestionGenerator.forward, FollowUpGenerator.forward,
      ChainOfThought, getattr, pure_service, bind, ret, raise.
    cbn.
    destruct (g (MkCall GenerateQuestion _) !! "question") as [q |];
      [| reflexivity]. cbn.
    destruct (g (MkCall GenerateQuestion _) !! "explanation"); [| reflexivity].
    destruct (g (MkCall AssessDifficulty _) !! "assessed_difficulty");
      [| reflexivity].
    destruct (g (MkCall AssessDifficulty _) !! "reasoning"); [| reflexivity].
    destruct (g (MkCall GenerateFollowUp _) !! "followup_questions");
      reflexivity.
Qed.

(** What the swap does change: when both later stages fail, the exception
    that surfaces is the one of the stage that ran first. *)
Example swapped_stages_other_exception :
  (InterviewPipeline.forward (PyStr "heaps") (PyStr "coding") (PyStr "easy")
     None failing_late []).2
    = Raised (Raise "TimeoutError" "follow-up generation") /\
  (InterviewPipeline_forward_assess_first (PyStr "heaps") (PyStr "coding")
     (PyStr "easy") None failing_late []).2
    = Raised (Raise "RateLimitError" "difficulty assessment").
Proof. split; vm_compute; reflexivity. Qed.

(** The restriction to services that ignore the history is needed. *)
Example swapped_stages_history_matters :
  InterviewPipeline.followup_questions
    <$> result_of (InterviewPipeline.forward (PyStr "heaps") (PyStr "coding")
                     (PyStr "easy") None numbering [])
    = Some (PyStr "1") /\
  InterviewPipeline.followup_questions
    <$> result_of (InterviewPipeline_forward_assess_first (PyStr "heaps")
                     (PyStr "coding") (PyStr "easy") None numbering [])
    = Some (PyStr "2").
Proof. split; vm_compute; reflexivity. Qed.

(** ** The number of follow-ups *)

Ltac run_cases :=
  unfold InterviewPipeline.forward, CompleteInterviewGenerator.forward,
    CompleteInterviewGenerator.dispatch, InterviewPipeline.difficulty_assessor,
    QuestionGenerator.forward, CodingQuestionGenerator.forward,
    MLQuestionGenerator.forward, FollowUpGenerator.forward,
    ChainOfThought, getattr, bind, ret, raise;
  cbv zeta; repeat case_match; simplify_eq; cbn [fst snd];
  rewrite <- ?app_assoc, ?drop_app_length, ?drop_all.

(** The follow-up calls that a pipeline adds to the log carry the count it
    was given: there is at most one such call, and exactly one when the run
    returns. *)
Lemma InterviewPipeline_followup_counts
    topic question_type difficulty num_followups lm log :
  let run := InterviewPipeline.forward topic question_type difficulty
               num_followups lm log in
  let counts := followup_counts (drop (length log) run.1) in
  (counts = [] \/ counts = [Some (default (PyInt 3) num_followups)]) /\
  (forall r, run.2 = Returned r ->
             counts = [Some (default (PyInt 3) num_followups)]).
Proof.
  cbv zeta. run_cases.
  all: split.
  all: try (left; reflexivity).
  all: try (right; reflexivity).
  all: intros r Hr; first [discriminate Hr | reflexivity].
Qed.

Lemma CompleteInterviewGenerator_followup_counts
    topic question_type difficulty num_followups lm log :
  let run := CompleteInterviewGenerator.forward topic question_type difficulty
               num_followups lm log in
  let counts := followup_counts (drop (length log) run.1) in
  (counts = [] \/ counts = [Some (default (PyInt 3) num_followups)]) /\
  (forall r, run.2 = Returned r ->
             counts = [Some (default (PyInt 3) num_followups)]).
Proof.
  cbv zeta. run_cases.
  all: split.
  all: try (left; reflexivity).
  all: try (right; reflexivity).
  all: intros r Hr; first [discriminate Hr | reflexivity].
Qed.

(** As soon as the stage before has produced the question, a pipeline
    makes its follow-up call, whatever happens afterwards. *)
Lemma InterviewPipeline_followup_call_made
    topic question_type difficulty num_followups lm log
    (question_result : Prediction) q :
  lm log (question_call topic question_type difficulty)
    = Returned question_result ->
  question_result !! "question" = Some q ->
  exists rest,
    (InterviewPipeline.forward topic question_type difficulty num_followups
       lm log).1
    = log ++ [question_call topic question_type difficulty;
              followup_call q topic (default (PyInt 3) num_followups)]
          ++ rest.
Proof.
  intros H1 Hq. unfold InterviewPipeline.forward. cbv zeta.
  unfold bind at 1. rewrite QuestionGenerator_forward_run, H1.
  rewrite (bind_returned _ _ _ _ _ _ (getattr_some _ _ _ _ _ Hq)).
  unfold bind at 1. rewrite FollowUpGenerator_forward_run.
  simpl (default _ (Some _)).
  destruct (lm (log ++ [_]) _) as [fr | e].
  - rewrite (bind_returned _ _ _ _ _ _ (getattr_some _ _ _ _ _ Hq)).
    unfold bind at 1. rewrite difficulty_assessor_run.
    destruct (lm _ (assess_call q topic)) as [dr | e].
    + exists [assess_call q topic].
      rewrite bind_getattr, Hq.
      repeat (rewrite bind_getattr;
              match goal with
              | |- context [match ?o !! ?n with _ => _ end] =>
                  destruct (o !! n)
              end; [| cbn [fst]; now rewrite <- !app_assoc]).
      unfold ret. cbn [fst]. now rewrite <- !app_assoc.
    + exists [assess_call q topic]. cbn [fst]. now rewrite <- !app_assoc.
  - exists []. cbn [fst]. now rewrite <- !app_assoc.
Qed.

Lemma CompleteInterviewGenerator_followup_call_made
    topic question_type difficulty num_followups lm log log1
    main_question result :
  CompleteInterviewGenerator.dispatch topic question_type difficulty lm log
    = (log1, Returned (main_question, result)) ->
  (CompleteInterviewGenerator.forward topic question_type difficulty
     num_followups lm log).1
  = log1 ++ [followup_call main_question topic
               (default (PyInt 3) num_followups)].
Proof.
  intros Hd. unfold CompleteInterviewGenerator.forward. cbv zeta.
  rewrite (bind_returned _ _ _ _ _ _ Hd).
  unfold bind at 1. rewrite FollowUpGenerator_forward_run.
  simpl (default _ (Some _)).
  destruct (lm log1 _) as [fr | e]; [| reflexivity].
  rewrite bind_getattr. now destruct (fr !! _).
Qed.

(** C9. Leaving [num_followups] out is the same as passing [3], for
    [FollowUpGenerator.forward], [InterviewPipeline.forward] and
    [CompleteInterviewGenerator.forward] alike.  A value that is passed, of
    any kind and any sign, reaches the follow-up predictor as it is: the
    follow-up generator makes its one call with it whatever it is; a
    pipeline makes its follow-up call with it (or with 3 when it was left
    out) as soon as the stage before has produced the question, whatever
    happens afterwards; and that is the only follow-up call of the run. *)
Theorem C9_num_followups_default_and_passthrough :
  (forall original_question topic lm log,
     FollowUpGenerator.forward original_question topic None lm log
     = FollowUpGenerator.forward original_question topic (Some (PyInt 3)) lm log) /\
  (forall topic question_type difficulty lm log,
     InterviewPipeline.forward topic question_type difficulty None lm log
     = InterviewPipeline.forward topic question_type difficulty
         (Some (PyInt 3)) lm log) /\
  (forall topic question_type difficulty lm log,
     CompleteInterviewGenerator.forward topic question_type difficulty None
       lm log
     = CompleteInterviewGenerator.forward topic question_type difficulty
         (Some (PyInt 3)) lm log) /\
  (forall original_question topic v lm log,
     let c := MkCall GenerateFollowUp
                [("original_question", original_question); ("topic", topic);
                 ("num_followups", v)] in
     FollowUpGenerator.forward original_question topic (Some v) lm log
     = (log ++ [c], lm log c)) /\
  (forall topic question_type difficulty v lm log,
     let run := InterviewPipeline.forward topic question_type difficulty
                  (Some v) lm log in
     let counts := followup_counts (drop (length log) run.1) in
     (counts = [] \/ counts = [Some v]) /\
     (forall r, run.2 = Returned r -> counts = [Some v])) /\
  (forall topic question_type difficulty v lm log,
     let run := CompleteInterviewGenerator.forward topic question_type
                  difficulty (Some v) lm log in
     let counts := followup_counts (drop (length log) run.1) in
     (counts = [] \/ counts = [Some v]) /\
     (forall r, run.2 = Returned r -> counts = [Some v])) /\
  (forall topic question_type difficulty num_followups lm log
          (question_result : Prediction) q,
     let c1 := MkCall GenerateQuestion
                 [("topic", topic); ("question_type", question_type);
                  ("difficulty", difficulty)] in
     let c2 := MkCall GenerateFollowUp
                 [("original_question", q); ("topic", topic);
                  ("num_followups", default (PyInt 3) num_followups)] in
     lm log c1 = Returned question_result ->
     question_result !! "question" = Some q ->
     exists rest,
       (InterviewPipeline.forward topic question_type difficulty
          num_followups lm log).1 = log ++ [c1; c2] ++ rest) /\
  (forall topic question_type difficulty num_followups lm log log1
          main_question result,
     let c2 := MkCall GenerateFollowUp
                 [("original_question", main_question); ("topic", topic);
                  ("num_followups", default (PyInt 3) num_followups)] in
     CompleteInterviewGenerator.dispatch topic question_type difficulty lm log
       = (log1, Returned (main_question, result)) ->
     (CompleteInterviewGenerator.forward topic question_type difficulty
        num_followups lm log).1 = log1 ++ [c2]).
Proof.
  repeat split; try reflexivity.
  - intros. apply FollowUpGenerator_forward_run.
  - apply (InterviewPipeline_followup_counts _ _ _ (Some v)).
  - apply (InterviewPipeline_followup_counts _ _ _ (Some v)).
  - apply (CompleteInterviewGenerator_followup_counts _ _ _ (Some v)).
  - apply (CompleteInterviewGenerator_followup_counts _ _ _ (Some v)).
  - intros topic question_type difficulty num_followups lm log qr q.
    cbv zeta. apply InterviewPipeline_followup_call_made.
  - intros topic question_type difficulty num_followups lm log log1 mq res.
    cbv zeta. apply CompleteInterviewGenerator_followup_call_made.
Qed.

Lemma C9_witness_zero_and_negative :
  (InterviewPipeline.forward (PyStr "tries") (PyStr "coding") (PyStr "easy")
     (Some (PyInt 0)) canned_service []).1
  = [MkCall GenerateQuestion
       [("topic", PyStr "tries"); ("question_type", PyStr "coding");
        ("difficulty", PyStr "easy")];
     MkCall GenerateFollowUp
       [("original_question", PyStr "<question>"); ("topic", PyStr "tries");
        ("num_followups", PyInt 0)];
     MkCall AssessDifficulty
       [("question", PyStr "<question>"); ("topic", PyStr "tries")]] /\
  followup_counts
    (drop (length (@nil Call))
       (InterviewPipeline.forward (PyStr "tries") (PyStr "coding")
          (PyStr "easy") (Some (PyInt 0)) canned_service []).1)
    = [Some (PyInt 0)] /\
  FollowUpGenerator.forward (PyStr "Implement a trie.") (PyStr "tries")
    (Some (PyInt (-2))) canned_service []
    = ([MkCall GenerateFollowUp
          [("original_question", PyStr "Implement a trie.");
           ("topic", PyStr "tries"); ("num_followups", PyInt (-2))]],
       Returned (canned GenerateFollowUp)) /\
  (CompleteInterviewGenerator.forward (PyStr "dropout") (PyStr "ml_theory")
     (PyStr "hard") (Some (PyInt (-1))) canned_service []).1
  = [MkCall GenerateMLQuestion
       [("topic", PyStr "dropout"); ("difficulty", PyStr "hard");
        ("question_style", PyStr "theoretical")]]
    ++ [MkCall GenerateFollowUp
          [("original_question", PyStr "<question>");
           ("topic", PyStr "dropout"); ("num_followups", PyInt (-1))]] /\
  (CompleteInterviewGenerator.forward (PyStr "dropout") (PyStr "ml_theory")
     (PyStr "hard") None canned_service []).1
  = [MkCall GenerateMLQuestion
       [("topic", PyStr "dropout"); ("difficulty", PyStr "hard");
        ("question_style", PyStr "theoretical")]]
    ++ [MkCall GenerateFollowUp
          [("original_question", PyStr "<question>");
           ("topic", PyStr "dropout"); ("num_followups", PyInt 3)]] /\
  is_Some (result_of
             (CompleteInterviewGenerator.forward (PyStr "dropout")
                (PyStr "ml_theory") (PyStr "hard") (Some (PyInt (-1)))
                canned_service [])).
Proof.
  split; [vm_compute; reflexivity |]. split.
  { refine (proj2 (proj1 (proj2 (proj2 (proj2 (proj2
              C9_num_followups_default_and_passthrough))))
              (PyStr "tries") (PyStr "coding") (PyStr "easy") (PyInt 0)
              canned_service []) _ _).
    vm_compute; reflexivity. }
  split.
  { exact (proj1 (proj2 (proj2 (proj2
             C9_num_followups_default_and_passthrough)))
             (PyStr "Implement a trie.") (PyStr "tries") (PyInt (-2))
             canned_service []). }
  split.
  { apply (proj2 (proj2 (proj2 (proj2 (proj2 (proj2 (proj2
             C9_num_followups_default_and_passthrough))))))
             (PyStr "dropout") (PyStr "ml_theory") (PyStr "hard")
             (Some (PyInt (-1))) canned_service []
             [ml_call (PyStr "dropout") (PyStr "hard") (PyStr "theoretical")]
             (PyStr "<question>") (canned GenerateMLQuestion)).
    vm_compute; reflexivity. }
  split.
  { apply (proj2 (proj2 (proj2 (proj2 (proj2 (proj2 (proj2
             C9_num_followups_default_and_passthrough))))))
             (PyStr "dropout") (PyStr "ml_theory") (PyStr "hard")
             None canned_service []
             [ml_call (PyStr "dropout") (PyStr "hard") (PyStr "theoretical")]
             (PyStr "<question>") (canned GenerateMLQuestion)).
    vm_compute; reflexivity. }
  vm_compute. eexists. reflexivity.
Defined.

(** ** Inputs of the single-stage generators *)




(** * Further properties of modules.py *)

(** ** How InterviewPipeline fails *)

(** X1. Whatever [question_type] and [difficulty] are, the pipeline makes the
    question call with them as they are: its run always starts with that
    call.  Unlike [CompleteInterviewGenerator], it rejects no value. *)
Theorem InterviewPipeline_always_asks_first
    topic question_type difficulty num_followups lm log :
  exists rest,
    (InterviewPipeline.forward topic question_type difficulty num_followups
       lm log).1
    = log ++ question_call topic question_type difficulty :: rest.
Proof.
  unfold question_call. run_cases; eexists; reflexivity.
Qed.

(** X2. When the question stage answers but the follow-up generator raises,
    the pipeline raises the same exception after two calls: the difficulty
    assessor is not called. *)
Theorem InterviewPipeline_followup_failure_aborts
    topic question_type difficulty num_followups lm log
    (question_result : Prediction) q e :
  let c1 := question_call topic question_type difficulty in
  let c2 := followup_call q topic (default (PyInt 3) num_followups) in
  lm log c1 = Returned question_result ->
  question_result !! "question" = Some q ->
  lm (log ++ [c1]) c2 = Raised e ->
  InterviewPipeline.forward topic question_type difficulty num_followups lm log
  = (log ++ [c1; c2], Raised e).
Proof.
  cbv zeta. intros H1 Hq H2. unfold InterviewPipeline.forward. cbv zeta.
  unfold bind at 1. rewrite QuestionGenerator_forward_run, H1.
  rewrite (bind_returned _ _ _ _ _ _ (getattr_some _ _ _ _ _ Hq)).
  unfold bind at 1. rewrite FollowUpGenerator_forward_run.
  simpl (default _ (Some _)). rewrite H2. now rewrite <- app_assoc.
Qed.

Lemma X2_witness_followup_down :
  let e := Raise "TimeoutError" "follow-up generation" in
  let c1 := question_call (PyStr "heaps") (PyStr "coding") (PyStr "easy") in
  let c2 := followup_call (PyStr "<question>") (PyStr "heaps") (PyInt 3) in
  InterviewPipeline.forward (PyStr "heaps") (PyStr "coding") (PyStr "easy")
    None failing_late [] = ([c1; c2], Raised e).
Proof.
  cbv zeta.
  apply (InterviewPipeline_followup_failure_aborts
           (PyStr "heaps") (PyStr "coding") (PyStr "easy") None failing_late []
           (canned GenerateQuestion) (PyStr "<question>")
           (Raise "TimeoutError" "follow-up generation"));
    vm_compute; reflexivity.
Defined.

(** X3. When the first two stages answer but the difficulty assessor raises,
    the pipeline raises the same exception after its three calls; the
    follow-up answer already obtained is dropped with it. *)
Theorem InterviewPipeline_assessor_failure_propagates
    topic question_type difficulty num_followups lm log
    (question_result followup_result : Prediction) q e :
  let c1 := question_call topic question_type difficulty in
  let c2 := followup_call q topic (default (PyInt 3) num_followups) in
  let c3 := assess_call q topic in
  lm log c1 = Returned question_result ->
  question_result !! "question" = Some q ->
  lm (log ++ [c1]) c2 = Returned followup_result ->
  lm (log ++ [c1; c2]) c3 = Raised e ->
  InterviewPipeline.forward topic question_type difficulty num_followups lm log
  = (log ++ [c1; c2; c3], Raised e).
Proof.
  cbv zeta. intros H1 Hq H2 H3. unfold InterviewPipeline.forward. cbv zeta.
  unfold bind at 1. rewrite QuestionGenerator_forward_run, H1.
  rewrite (bind_returned _ _ _ _ _ _ (getattr_some _ _ _ _ _ Hq)).
  unfold bind at 1. rewrite FollowUpGenerator_forward_run.
  simpl (default _ (Some _)). rewrite H2.
  rewrite (bind_returned _ _ _ _ _ _ (getattr_some _ _ _ _ _ Hq)).
  unfold bind at 1. rewrite difficulty_assessor_run.
  rewrite <- app_assoc. cbn [app]. rewrite H3. now rewrite <- app_assoc.
Qed.

Lemma X3_witness_assessor_down :
  let e := Raise "RateLimitError" "difficulty assessment" in
  let lm := failing_on AssessDifficulty e in
  let c1 := question_call (PyStr "heaps") (PyStr "coding") (PyStr "easy") in
  let c2 := followup_call (PyStr "<question>") (PyStr "heaps") (PyInt 1) in
  let c3 := assess_call (PyStr "<question>") (PyStr "heaps") in
  InterviewPipeline.forward (PyStr "heaps") (PyStr "coding") (PyStr "easy")
    (Some (PyInt 1)) lm [] = ([c1; c2; c3], Raised e).
Proof.
  cbv zeta.
  apply (InterviewPipeline_assessor_failure_propagates
           (PyStr "heaps") (PyStr "coding") (PyStr "easy") (Some (PyInt 1))
           (failing_on AssessDifficulty
              (Raise "RateLimitError" "difficulty assessment")) []
           (canned GenerateQuestion) (canned GenerateFollowUp)
           (PyStr "<question>")
           (Raise "RateLimitError" "difficulty assessment"));
    vm_compute; reflexivity.
Defined.

(** X4. When the answer of the question stage has no [question] attribute,
    the pipeline raises the attribute error after that one call: no later
    stage runs. *)
Theorem InterviewPipeline_missing_question_aborts
    topic question_type difficulty num_followups lm log
    (question_result : Prediction) :
  let c1 := question_call topic question_type difficulty in
  lm log c1 = Returned question_result ->
  question_result !! "question" = None ->
  InterviewPipeline.forward topic question_type difficulty num_followups lm log
  = (log ++ [c1],
     Raised (AttributeError "'Prediction' object has no attribute 'question'")).
Proof.
  cbv zeta. intros H1 Hq. unfold InterviewPipeline.forward. cbv zeta.
  unfold bind at 1. rewrite QuestionGenerator_forward_run, H1.
  apply bind_raised. unfold getattr. now rewrite Hq.
Qed.

Lemma X4_witness_empty_answer :
  InterviewPipeline.forward (PyStr "heaps") (PyStr "coding") (PyStr "easy")
    None (answering ∅) []
  = ([question_call (PyStr "heaps") (PyStr "coding") (PyStr "easy")],
     Raised (AttributeError "'Prediction' object has no attribute 'question'")).
Proof.
  apply (InterviewPipeline_missing_question_aborts
           (PyStr "heaps") (PyStr "coding") (PyStr "easy") None
           (answering ∅) [] ∅); reflexivity.
Defined.

(** X5. The other four attributes are read only when the result is built,
    in the order [explanation], [assessed_difficulty], [reasoning],
    [followup_questions].  If all three calls are answered and the question
    is there, but one of these is missing from its answer, the pipeline
    raises the attribute error of the first that is missing in this order,
    after all three calls have been made. *)
Theorem InterviewPipeline_late_missing_attribute
    topic question_type difficulty num_followups lm log
    (question_result followup_result difficulty_result : Prediction) q :
  let c1 := question_call topic question_type difficulty in
  let c2 := followup_call q topic (default (PyInt 3) num_followups) in
  let c3 := assess_call q topic in
  let reads := [("explanation", question_result);
                ("assessed_difficulty", difficulty_result);
                ("reasoning", difficulty_result);
                ("followup_questions", followup_result)] in
  lm log c1 = Returned question_result ->
  question_result !! "question" = Some q ->
  lm (log ++ [c1]) c2 = Returned followup_result ->
  lm (log ++ [c1; c2]) c3 = Returned difficulty_result ->
  question_result !! "explanation" = None \/
  difficulty_result !! "assessed_difficulty" = None \/
  difficulty_result !! "reasoning" = None \/
  followup_result !! "followup_questions" = None ->
  exists present name (answer : Prediction) later,
    reads = present ++ (name, answer) :: later /\
    Forall (fun read => is_Some (read.2 !! read.1)) present /\
    answer !! name = None /\
    InterviewPipeline.forward topic question_type difficulty num_followups
      lm log
    = (log ++ [c1; c2; c3],
       Raised (AttributeError
                 ("'Prediction' object has no attribute '" +:+ name +:+ "'"))).
Proof.
  cbv zeta. intros H1 Hq H2 H3 Hmiss.
  unfold InterviewPipeline.forward. cbv zeta.
  unfold bind at 1. rewrite QuestionGenerator_forward_run, H1.
  rewrite (bind_returned _ _ _ _ _ _ (getattr_some _ _ _ _ _ Hq)).
  unfold bind at 1. rewrite FollowUpGenerator_forward_run.
  simpl (default _ (Some _)). rewrite H2.
  rewrite (bind_returned _ _ _ _ _ _ (getattr_some _ _ _ _ _ Hq)).
  unfold bind at 1. rewrite difficulty_assessor_run.
  rewrite <- app_assoc. cbn [app]. rewrite H3.
  rewrite (bind_returned _ _ _ _ _ _ (getattr_some _ _ _ _ _ Hq)).
  rewrite <- app_assoc. cbn [app].
  unfold bind, getattr, ret, raise.
  destruct (question_result !! "explanation") as [v1 |] eqn:E1.
  2:{ exists [], "explanation", question_result. eexists.
      split; [reflexivity |]. split; [constructor |]. split; [exact E1 |].
      reflexivity. }
  destruct (difficulty_result !! "assessed_difficulty") as [v2 |] eqn:E2.
  2:{ exists [("explanation", question_result)],
             "assessed_difficulty", difficulty_result. eexists.
      split; [reflexivity |].
      split; [repeat constructor; cbn; rewrite E1; eauto |].
      split; [exact E2 | reflexivity]. }
  destruct (difficulty_result !! "reasoning") as [v3 |] eqn:E3.
  2:{ exists [("explanation", question_result);
              ("assessed_difficulty", difficulty_result)],
             "reasoning", difficulty_result. eexists.
      split; [reflexivity |].
      split; [repeat constructor; cbn; rewrite ?E1, ?E2; eauto |].
      split; [exact E3 | reflexivity]. }
  destruct (followup_result !! "followup_questions") as [v4 |] eqn:E4.
  2:{ exists [("explanation", question_result);
              ("assessed_difficulty", difficulty_result);
              ("reasoning", difficulty_result)],
             "followup_questions", followup_result. exists [].
      split; [reflexivity |].
      split; [repeat constructor; cbn; rewrite ?E1, ?E2, ?E3; eauto |].
      split; [exact E4 | reflexivity]. }
  destruct Hmiss as [H | [H | [H | H]]]; discriminate H.
Qed.

Lemma X5_witness_no_reasoning :
  let p1 : Prediction :=
    {[ "question" := PyStr "Invert a binary tree." ]} in
  let p : Prediction :=
    <["explanation" := PyStr "Recursion on trees."]>
      (<["assessed_difficulty" := PyStr "easy"]> p1) in
  exists present name (answer : Prediction) later,
    [("explanation", p); ("assessed_difficulty", p); ("reasoning", p);
     ("followup_questions", p)]
      = present ++ (name, answer) :: later /\
    Forall (fun read => is_Some (read.2 !! read.1)) present /\
    answer !! name = None /\
    InterviewPipeline.forward (PyStr "trees") (PyStr "coding") (PyStr "easy")
      None (answering p) []
    = ([question_call (PyStr "trees") (PyStr "coding") (PyStr "easy");
        followup_call (PyStr "Invert a binary tree.") (PyStr "trees") (PyInt 3);
        assess_call (PyStr "Invert a binary tree.") (PyStr "trees")],
       Raised (AttributeError
                 ("'Prediction' object has no attribute '" +:+ name +:+ "'"))).
Proof.
  cbv zeta.
  apply (InterviewPipeline_late_missing_attribute
           (PyStr "trees") (PyStr "coding") (PyStr "easy") None
           (answering
              (<["explanation" := PyStr "Recursion on trees."]>
                 (<["assessed_difficulty" := PyStr "easy"]>
                    {[ "question" := PyStr "Invert a binary tree." ]}))) []
           (<["explanation" := PyStr "Recursion on trees."]>
              (<["assessed_difficulty" := PyStr "easy"]>
                 {[ "question" := PyStr "Invert a binary tree." ]}))
           (<["explanation" := PyStr "Recursion on trees."]>
              (<["assessed_difficulty" := PyStr "easy"]>
                 {[ "question" := PyStr "Invert a binary tree." ]}))
           (<["explanation" := PyStr "Recursion on trees."]>
              (<["assessed_difficulty" := PyStr "easy"]>
                 {[ "question" := PyStr "Invert a binary tree." ]}))
           (PyStr "Invert a binary tree."));
    try reflexivity.
  right. right. left. reflexivity.
Defined.

(** ** Which predictors a pipeline reaches, and with what *)

Ltac added_calls :=
  first [ exists []; split; [symmetry; apply app_nil_r |]
        | eexists; split; [reflexivity |] ].

(** X6. Whatever the outcome, [InterviewPipeline.forward] only appends to the
    log, and the signatures of the calls it appends are an initial part of
    question, follow-up, assessment: never more than three calls, never out
    of this order, never a coding or ML predictor. *)
Theorem InterviewPipeline_call_sequence
    topic question_type difficulty num_followups lm log :
  exists added,
    (InterviewPipeline.forward topic question_type difficulty num_followups
       lm log).1 = log ++ added /\
    (call_sig <$> added)
      `prefix_of` [GenerateQuestion; GenerateFollowUp; AssessDifficulty].
Proof.
  run_cases; added_calls; cbn; eexists; reflexivity.
Qed.

(** The dispatch makes no call and raises, or makes exactly one call, to the
    coding predictor or to the ML predictor with an explicit style. *)
Lemma dispatch_calls topic question_type difficulty lm log :
  (exists e,
     CompleteInterviewGenerator.dispatch topic question_type difficulty lm log
     = (log, Raised e)) \/
  exists c,
    (CompleteInterviewGenerator.dispatch topic question_type difficulty
       lm log).1 = log ++ [c] /\
    (c = coding_call topic difficulty \/
     c = ml_call topic difficulty (PyStr "theoretical") \/
     c = ml_call topic difficulty (PyStr "practical")).
Proof.
  unfold CompleteInterviewGenerator.dispatch.
  destruct (py_eq question_type (PyStr "coding")).
  { right. exists (coding_call topic difficulty). split; [| auto].
    unfold bind at 1. rewrite CodingQuestionGenerator_forward_run.
    destruct (lm log _) as [res | e]; [| reflexivity].
    repeat (rewrite bind_getattr; destruct (res !! _); [| reflexivity]).
    reflexivity. }
  destruct (py_eq question_type (PyStr "ml_theory")).
  { right. exists (ml_call topic difficulty (PyStr "theoretical")).
    split; [| auto].
    unfold bind at 1. rewrite MLQuestionGenerator_forward_run.
    simpl (default _ (Some _)).
    destruct (lm log _) as [res | e]; [| reflexivity].
    rewrite bind_getattr. now destruct (res !! _). }
  destruct (py_eq question_type (PyStr "ml_practical")).
  { right. exists (ml_call topic difficulty (PyStr "practical")).
    split; [| auto].
    unfold bind at 1. rewrite MLQuestionGenerator_forward_run.
    simpl (default _ (Some _)).
    destruct (lm log _) as [res | e]; [| reflexivity].
    rewrite bind_getattr. now destruct (res !! _). }
  left. eexists. reflexivity.
Qed.

(** After the dispatch, at most the one follow-up call. *)
Lemma CompleteInterviewGenerator_forward_calls
    topic question_type difficulty num_followups lm log :
  let after_dispatch :=
    (CompleteInterviewGenerator.dispatch topic question_type difficulty
       lm log).1 in
  let run := CompleteInterviewGenerator.forward topic question_type difficulty
               num_followups lm log in
  run.1 = after_dispatch \/
  exists main_question,
    run.1 = after_dispatch
            ++ [followup_call main_question topic
                  (default (PyInt 3) num_followups)].
Proof.
  cbv zeta. unfold CompleteInterviewGenerator.forward. cbv zeta.
  destruct (CompleteInterviewGenerator.dispatch _ _ _ _ _)
    as [log1 [[mq res] | e]] eqn:Hd.
  - right. exists mq. rewrite (bind_returned _ _ _ _ _ _ Hd).
    unfold bind at 1. rewrite FollowUpGenerator_forward_run.
    simpl (default _ (Some _)).
    destruct (lm log1 _) as [fr | e]; [| reflexivity].
    rewrite bind_getattr. now destruct (fr !! _).
  - left. now rewrite (bind_raised _ _ _ _ _ _ Hd).
Qed.

(** The calls that a run of [CompleteInterviewGenerator.forward] appends. *)
Lemma CompleteInterviewGenerator_added_calls
    topic question_type difficulty num_followups lm log :
  exists added,
    (CompleteInterviewGenerator.forward topic question_type difficulty
       num_followups lm log).1 = log ++ added /\
    (added = [] \/
     exists c,
       (c = coding_call topic difficulty \/
        c = ml_call topic difficulty (PyStr "theoretical") \/
        c = ml_call topic difficulty (PyStr "practical")) /\
       (added = [c] \/
        exists main_question,
          added = [c; followup_call main_question topic
                        (default (PyInt 3) num_followups)])).
Proof.
  destruct (dispatch_calls topic question_type difficulty lm log)
    as [[e Hd] | (c & Hd & Hc)].
  - exists []. split; [| now left].
    unfold CompleteInterviewGenerator.forward. cbv zeta.
    rewrite (bind_raised _ _ _ _ _ _ Hd). symmetry. apply app_nil_r.
  - destruct (CompleteInterviewGenerator_forward_calls topic question_type
                difficulty num_followups lm log) as [Hf | [mq Hf]];
      rewrite Hf, Hd.
    + exists [c]. split; [reflexivity |]. right. exists c. auto.
    + exists [c; followup_call mq topic (default (PyInt 3) num_followups)].
      split; [now rewrite <- app_assoc |]. right. exists c. eauto.
Qed.

(** X7. Whatever the outcome, [CompleteInterviewGenerator.forward] only
    appends to the log, and the signatures of the calls it appends are an
    initial part of coding question then follow-up, or of ML question then
    follow-up: never more than two calls, and never the generic question
    predictor or the difficulty assessor. *)
Theorem CompleteInterviewGenerator_call_sequence
    topic question_type difficulty num_followups lm log :
  exists added,
    (CompleteInterviewGenerator.forward topic question_type difficulty
       num_followups lm log).1 = log ++ added /\
    ((call_sig <$> added) `prefix_of` [GenerateCodingQuestion; GenerateFollowUp]
     \/ (call_sig <$> added) `prefix_of` [GenerateMLQuestion; GenerateFollowUp]).
Proof.
  destruct (CompleteInterviewGenerator_added_calls topic question_type
              difficulty num_followups lm log)
    as (added & Hrun & [-> | (c & Hc & [-> | [mq ->]])]);
    exists added || (eexists; split; [exact Hrun |]).
  - left. now exists [GenerateCodingQuestion; GenerateFollowUp].
  - destruct Hc as [-> | [-> | ->]]; cbn;
      [left; now exists [GenerateFollowUp] | right; now exists [GenerateFollowUp]
       | right; now exists [GenerateFollowUp]].
  - destruct Hc as [-> | [-> | ->]]; cbn;
      [left; now exists [] | right; now exists [] | right; now exists []].
Qed.

(** X8. Every call that either pipeline makes carries the caller's [topic]
    unchanged. *)
Theorem pipelines_thread_topic
    topic question_type difficulty num_followups lm log :
  Forall (fun c => kwarg c "topic" = Some topic)
    (drop (length log)
       (InterviewPipeline.forward topic question_type difficulty
          num_followups lm log).1) /\
  Forall (fun c => kwarg c "topic" = Some topic)
    (drop (length log)
       (CompleteInterviewGenerator.forward topic question_type difficulty
          num_followups lm log).1).
Proof.
  split.
  - run_cases; repeat constructor.
  - destruct (CompleteInterviewGenerator_added_calls topic question_type
                difficulty num_followups lm log)
      as (added & -> & [-> | (c & Hc & [-> | [mq ->]])]);
      rewrite drop_app_length;
      try (destruct Hc as [-> | [-> | ->]]); repeat constructor.
Qed.

(** X9. [CompleteInterviewGenerator.forward] never relies on the ["mixed"]
    default of the ML generator: every ML call it makes, for any
    [question_type] whatever, asks for the style ["theoretical"] or
    ["practical"]. *)
Theorem CompleteInterviewGenerator_ml_style_explicit
    topic question_type difficulty num_followups lm log :
  Forall (fun c =>
            call_sig c = GenerateMLQuestion ->
            kwarg c "question_style" = Some (PyStr "theoretical") \/
            kwarg c "question_style" = Some (PyStr "practical"))
    (drop (length log)
       (CompleteInterviewGenerator.forward topic question_type difficulty
          num_followups lm log).1).
Proof.
  destruct (CompleteInterviewGenerator_added_calls topic question_type
              difficulty num_followups lm log)
    as (added & -> & [-> | (c & Hc & [-> | [mq ->]])]);
    rewrite drop_app_length;
    try (destruct Hc as [-> | [-> | ->]]);
    repeat first
      [ apply Forall_nil_2
      | apply Forall_cons_2;
        [ cbn [call_sig]; intros Hsig;
          first [ discriminate Hsig | left; reflexivity | right; reflexivity ]
        | ] ].
Qed.

(** ** How CompleteInterviewGenerator fails *)

(** X10. When the coding answer lacks one of the six declared output fields,
    [forward] raises the attribute error of a missing field after the coding
    call alone: no follow-up call is made. *)
Theorem CompleteInterviewGenerator_coding_missing_field
    topic difficulty num_followups lm log (result : Prediction) missing :
  lm log (coding_call topic difficulty) = Returned result ->
  missing ∈ output_fields GenerateCodingQuestion ->
  result !! missing = None ->
  exists name,
    name ∈ output_fields GenerateCodingQuestion /\
    result !! name = None /\
    CompleteInterviewGenerator.forward topic (PyStr "coding") difficulty
      num_followups lm log
    = (log ++ [coding_call topic difficulty],
       Raised (AttributeError
                 ("'Prediction' object has no attribute '" +:+ name +:+ "'"))).
Proof.
  intros H1 Hin Hmiss.
  unfold CompleteInterviewGenerator.forward,
    CompleteInterviewGenerator.dispatch. cbv zeta.
  change (py_eq (PyStr "coding") (PyStr "coding")) with true. cbv iota.
  unfold bind at 1 2. rewrite CodingQuestionGenerator_forward_run, H1.
  cbn [output_fields] in *.
  repeat (rewrite bind_getattr;
          match goal with
          | |- context [result !! ?f] =>
              destruct (result !! f) eqn:?;
              [| exists f; split; [repeat constructor | split; [assumption | reflexivity]]]
          end).
  exfalso.
  repeat (apply elem_of_cons in Hin as [-> | Hin]; [congruence |]).
  now apply elem_of_nil in Hin.
Qed.

Lemma X10_witness_title_only :
  let p : Prediction := {[ "question_title" := PyStr "Two Sum" ]} in
  exists name,
    name ∈ output_fields GenerateCodingQuestion /\
    p !! name = None /\
    CompleteInterviewGenerator.forward (PyStr "arrays") (PyStr "coding")
      (PyStr "easy") None (answering p) []
    = ([coding_call (PyStr "arrays") (PyStr "easy")],
       Raised (AttributeError
                 ("'Prediction' object has no attribute '" +:+ name +:+ "'"))).
Proof.
  cbv zeta.
  apply (CompleteInterviewGenerator_coding_missing_field
           (PyStr "arrays") (PyStr "easy") None
           (answering {[ "question_title" := PyStr "Two Sum" ]}) []
           {[ "question_title" := PyStr "Two Sum" ]} "example").
  - reflexivity.
  - cbn. repeat constructor.
  - reflexivity.
Defined.

(** X11. When the specialised generator has produced the question but the
    follow-up generator raises, [forward] raises the same exception after the
    follow-up call: the question already generated is not returned. *)
Theorem CompleteInterviewGenerator_followup_failure_propagates
    topic question_type difficulty num_followups lm log log1
    main_question result e :
  CompleteInterviewGenerator.dispatch topic question_type difficulty lm log
    = (log1, Returned (main_question, result)) ->
  lm log1 (followup_call main_question topic (default (PyInt 3) num_followups))
    = Raised e ->
  CompleteInterviewGenerator.forward topic question_type difficulty
    num_followups lm log
  = (log1 ++ [followup_call main_question topic
                (default (PyInt 3) num_followups)],
     Raised e).
Proof.
  intros Hd H2. unfold CompleteInterviewGenerator.forward. cbv zeta.
  rewrite (bind_returned _ _ _ _ _ _ Hd).
  unfold bind at 1. rewrite FollowUpGenerator_forward_run.
  simpl (default _ (Some _)). now rewrite H2.
Qed.

Lemma X11_witness_ml_then_timeout :
  let e := Raise "TimeoutError" "follow-up generation" in
  CompleteInterviewGenerator.forward (PyStr "dropout") (PyStr "ml_practical")
    (PyStr "hard") (Some (PyInt 4)) failing_late []
  = ([ml_call (PyStr "dropout") (PyStr "hard") (PyStr "practical");
      followup_call (PyStr "<question>") (PyStr "dropout") (PyInt 4)],
     Raised e).
Proof.
  cbv zeta.
  apply (CompleteInterviewGenerator_followup_failure_propagates
           (PyStr "dropout") (PyStr "ml_practical") (PyStr "hard")
           (Some (PyInt 4)) failing_late []
           [ml_call (PyStr "dropout") (PyStr "hard") (PyStr "practical")]
           (PyStr "<question>") (canned GenerateMLQuestion)
           (Raise "TimeoutError" "follow-up generation"));
    vm_compute; reflexivity.
Defined.

(** X13. The text assembled by the coding branch does not determine the six
    fields it was assembled from: two coding answers with different titles
    and descriptions give the same [question]. *)
Theorem coding_question_text_ambiguous :
  exists p1 p2 : Prediction,
    p1 !! "question_title" <> p2 !! "question_title" /\
    p1 !! "question_description" <> p2 !! "question_description" /\
    forall topic difficulty num_followups,
      CompleteInterviewGenerator.question
        <$> result_of (CompleteInterviewGenerator.forward topic (PyStr "coding")
                         difficulty num_followups (answering p1) [])
      = CompleteInterviewGenerator.question
          <$> result_of (CompleteInterviewGenerator.forward topic
                           (PyStr "coding") difficulty num_followups
                           (answering p2) []) /\
      is_Some (result_of (CompleteInterviewGenerator.forward topic
                            (PyStr "coding") difficulty num_followups
                            (answering p1) [])).
Proof.
  exists (<["question_title" := PyStr "Two Sum"]>
            (<["question_description" :=
                 PyStr ("Part one." +:+ nl +:+ nl +:+ "Part two.")]>
               (<["followup_questions" := PyStr "1. Why?"]>
                  (canned GenerateCodingQuestion)))),
         (<["question_title" :=
              PyStr ("Two Sum" +:+ nl +:+ nl +:+ "Part one.")]>
            (<["question_description" := PyStr "Part two."]>
               (<["followup_questions" := PyStr "1. Why?"]>
                  (canned GenerateCodingQuestion)))).
  split; [vm_compute; discriminate |].
  split; [vm_compute; discriminate |].
  intros topic difficulty num_followups. split.
  - vm_compute. reflexivity.
  - vm_compute. eexists. reflexivity.
Qed.

(** * The command-line script *)

Lemma io_bind_run {A B} (m : IO A) (k : A -> IO B) lm w :
  (m ≫= k) lm w =
  match m lm w with
  | (w', Done a) => k a lm w'
  | (w', SysExit code) => (w', SysExit code)
  | (w', Uncaught e) => (w', Uncaught e)
  end.
Proof. reflexivity. Qed.

Lemma io_bind_done {A B} (m : IO A) (k : A -> IO B) lm w w1 a :
  m lm w = (w1, Done a) -> (m ≫= k) lm w = k a lm w1.
Proof. intros H. rewrite io_bind_run. now rewrite H. Qed.

Lemma print_run s lm w :
  print s lm w
  = (MkWorld (stdin w) (stdout w ++ [s +:+ nl]) (configured w) (calls w),
     Done tt).
Proof. reflexivity. Qed.

(** Printing the menu writes and does nothing else. *)
Lemma print_options_run i options lm w :
  exists out,
    generate_question.print_options i options lm w
    = (MkWorld (stdin w) (stdout w ++ out) (configured w) (calls w), Done tt).
Proof.
  revert i w. induction options as [| o options IH]; intros i w.
  - exists []. cbn. rewrite app_nil_r. now destruct w.
  - cbn [generate_question.print_options]. rewrite io_bind_run, print_run.
    match goal with
    | |- context [generate_question.print_options (S i) options lm ?w1] =>
        destruct (IH (S i) w1) as [out Hout]
    end.
    rewrite Hout. cbn. eexists. now rewrite <- app_assoc.
Qed.

Section BuiltinsFacts.
Variable strip : string -> string.
Variable int : string -> option Z.

Abbreviation get_user_choice := (generate_question.get_user_choice strip int).
Abbreviation get_user_choice_loop :=
  (generate_question.get_user_choice_loop strip int).
Abbreviation get_text_input := (generate_question.get_text_input strip).
Abbreviation get_text_input_loop := (generate_question.get_text_input_loop strip).

(** [get_user_choice] is its loop, run after the menu was written. *)
Lemma get_user_choice_run prompt options lm w :
  exists menu,
    get_user_choice prompt options lm w
    = (let '(rest, out, r) :=
         get_user_choice_loop options (stdin w) (stdout w ++ menu) in
       (MkWorld rest out (configured w) (calls w), r)).
Proof.
  unfold generate_question.get_user_choice.
  rewrite io_bind_run, print_run.
  rewrite io_bind_run.
  match goal with
  | |- context [generate_question.print_options 1 options lm ?w1] =>
      destruct (print_options_run 1 options lm w1) as [out Hout]
  end.
  rewrite Hout. cbn.
  exists ([prompt +:+ nl] ++ out). now rewrite app_assoc.
Qed.

(** A line is skipped by the menu loop when it is a number outside the
    menu. *)
Lemma get_user_choice_loop_skip options skipped pending out :
  Forall (out_of_menu strip int options) skipped ->
  exists out',
    get_user_choice_loop options (skipped ++ pending) out
    = get_user_choice_loop options pending out'.
Proof.
  intros Hsk. revert out. induction Hsk as [| ev skipped Hev _ IH]; intros out.
  - now exists out.
  - destruct Hev as (s & n & -> & Hint & Hrange).
    cbn [app generate_question.get_user_choice_loop]. rewrite Hint.
    rewrite bool_decide_eq_false_2 by lia. apply IH.
Qed.

Lemma get_user_choice_loop_done options pending out rest out' v :
  get_user_choice_loop options pending out = (rest, out', Done v) ->
  exists s n,
    Line s ∈ pending /\ int (strip s) = Some n /\
    (1 <= n <= Z.of_nat (length options))%Z /\
    options !! Z.to_nat (n - 1) = Some v.
Proof.
  revert out. induction pending as [| ev pending IH]; intros out H.
  - discriminate H.
  - cbn [generate_question.get_user_choice_loop] in H.
    destruct ev as [s |]; [| discriminate H].
    destruct (int (strip s)) as [n |] eqn:Hint; [| discriminate H].
    case_bool_decide as Hrange.
    + destruct (options !! Z.to_nat (n - 1)) as [o |] eqn:Ho;
        [| discriminate H].
      inversion H; subst. exists s, n.
      repeat split; [left | assumption | lia | lia | assumption].
    + apply IH in H as (s' & n' & Hin & H').
      exists s', n'. split; [now right | exact H'].
Qed.
(** X14. What [get_user_choice] returns is always one of the options it was
    given: the one whose number, counted from 1, was typed on some line.  It
    makes no predictor call. *)
Theorem get_user_choice_returns_an_option prompt options lm w w' v :
  get_user_choice prompt options lm w = (w', Done v) ->
  v ∈ options /\
  (exists s n,
     Line s ∈ stdin w /\ int (strip s) = Some n /\
     (1 <= n <= Z.of_nat (length options))%Z /\
     options !! Z.to_nat (n - 1) = Some v) /\
  calls w' = calls w.
Proof.
  intros H. destruct (get_user_choice_run prompt options lm w) as [menu Hrun].
  rewrite Hrun in H. clear Hrun.
  destruct (get_user_choice_loop options (stdin w) (stdout w ++ menu))
    as [[rest out] r] eqn:Hloop.
  inversion H; subst. clear H.
  apply get_user_choice_loop_done in Hloop as (s & n & Hin & Hint & Hn & Ho).
  split; [| split; [| reflexivity]].
  - eapply list_elem_of_lookup_2, Ho.
  - exists s, n. auto.
Qed.

(** X15. Numbers outside the menu, zero and negative ones included, are
    asked again: after any run of them, the first number inside the menu
    selects the option at that position, and the lines after it are left
    unread. *)
Theorem get_user_choice_retries_until_valid
    prompt options lm w skipped s n rest :
  stdin w = skipped ++ Line s :: rest ->
  Forall (out_of_menu strip int options) skipped ->
  int (strip s) = Some n ->
  (1 <= n <= Z.of_nat (length options))%Z ->
  exists v out,
    options !! Z.to_nat (n - 1) = Some v /\
    get_user_choice prompt options lm w
    = (MkWorld rest out (configured w) (calls w), Done v).
Proof.
  intros Hin Hsk Hint Hn.
  destruct (lookup_lt_is_Some_2 options (Z.to_nat (n - 1))) as [v Hv]; [lia |].
  destruct (get_user_choice_run prompt options lm w) as [menu Hrun].
  rewrite Hrun, Hin. clear Hrun.
  destruct (get_user_choice_loop_skip options skipped (Line s :: rest)
              (stdout w ++ menu) Hsk) as [out' Hskip].
  rewrite Hskip. cbn [generate_question.get_user_choice_loop].
  rewrite Hint, bool_decide_eq_true_2 by lia. rewrite Hv.
  exists v. eexists. split; reflexivity.
Qed.

(** X16. A line that is not a number, or Ctrl-C, ends the program with
    status 0 instead of asking again, also after numbers outside the menu. *)
Theorem get_user_choice_exits_on_garbage
    prompt options lm w skipped ev rest :
  stdin w = skipped ++ ev :: rest ->
  Forall (out_of_menu strip int options) skipped ->
  ev = Interrupt \/ (exists s, ev = Line s /\ int (strip s) = None) ->
  exists out,
    get_user_choice prompt options lm w
    = (MkWorld rest out (configured w) (calls w), SysExit 0).
Proof.
  intros Hin Hsk Hev.
  destruct (get_user_choice_run prompt options lm w) as [menu Hrun].
  rewrite Hrun, Hin. clear Hrun.
  destruct (get_user_choice_loop_skip options skipped (ev :: rest)
              (stdout w ++ menu) Hsk) as [out' Hskip].
  rewrite Hskip. cbn [generate_question.get_user_choice_loop].
  destruct Hev as [-> | (s & -> & Hint)].
  - eexists. reflexivity.
  - rewrite Hint. eexists. reflexivity.
Qed.

(** X17. When the input ends while the loop is still asking, the [EOFError]
    of [input()] escapes: the loop catches only [ValueError] and
    [KeyboardInterrupt]. *)
Theorem get_user_choice_end_of_input prompt options lm w :
  Forall (out_of_menu strip int options) (stdin w) ->
  exists out,
    get_user_choice prompt options lm w
    = (MkWorld [] out (configured w) (calls w),
       Uncaught (Raise "EOFError" "EOF when reading a line")).
Proof.
  intros Hsk.
  destruct (get_user_choice_run prompt options lm w) as [menu Hrun].
  rewrite Hrun. clear Hrun.
  destruct (get_user_choice_loop_skip options (stdin w) []
              (stdout w ++ menu) Hsk) as [out' Hskip].
  rewrite app_nil_r in Hskip. rewrite Hskip.
  cbn [generate_question.get_user_choice_loop]. eexists. reflexivity.
Qed.

(** X18. [get_text_input] asks again on every line that is empty once
    stripped, and returns the first other line, stripped; the prompt was
    written once per line read and the reminder once per line skipped. *)
Theorem get_text_input_skips_blank_lines prompt lm w blanks s rest :
  stdin w = blanks ++ Line s :: rest ->
  Forall (fun ev => exists b, ev = Line b /\ strip b = "") blanks ->
  strip s <> "" ->
  get_text_input prompt lm w
  = (MkWorld rest
       (stdout w
        ++ (blanks ≫= fun _ => [prompt; "Please enter a value." +:+ nl])
        ++ [prompt])
       (configured w) (calls w),
     Done (strip s)).
Proof.
  intros Hin Hbl Hs. unfold generate_question.get_text_input. rewrite Hin.
  clear Hin. generalize (stdout w) as out.
  induction Hbl as [| ev blanks (b & -> & Hb) _ IH]; intros out.
  - cbn. rewrite bool_decide_eq_true_2 by assumption. reflexivity.
  - cbn [app generate_question.get_text_input_loop]. rewrite Hb.
    rewrite bool_decide_eq_false_2 by (intros Hne; now apply Hne).
    specialize (IH ((out ++ [prompt]) ++ ["Please enter a value." +:+ nl])).
    destruct (get_text_input_loop prompt (blanks ++ Line s :: rest) _)
      as [[rest' out'] r].
    inversion IH; subst. f_equal. f_equal.
    cbn. now rewrite <- !app_assoc.
Qed.

(** X19. What [get_text_input] returns is never empty: it is some line of
    the input, stripped, and that is not the empty string. *)
Theorem get_text_input_returns_nonempty prompt lm w w' v :
  get_text_input prompt lm w = (w', Done v) ->
  v <> "" /\ (exists s, Line s ∈ stdin w /\ v = strip s) /\
  calls w' = calls w.
Proof.
  unfold generate_question.get_text_input. intros H.
  destruct (get_text_input_loop prompt (stdin w) (stdout w))
    as [[rest out] r] eqn:Hloop.
  inversion H; subst. clear H. split; [| split; [| reflexivity]];
    revert Hloop; generalize (stdout w) as out0;
    induction (stdin w) as [| ev pending IH]; intros out0 Hloop;
    try discriminate Hloop;
    cbn [generate_question.get_text_input_loop] in Hloop;
    (destruct ev as [s |]; [| discriminate Hloop]);
    case_bool_decide as Hs.
  - inversion Hloop; subst. assumption.
  - eapply IH, Hloop.
  - inversion Hloop; subst. exists s. split; [left | reflexivity].
  - apply IH in Hloop as (s' & Hin & ->). exists s'. split; [now right | reflexivity].
Qed.
End BuiltinsFacts.

Lemma X14_witness_second_option :
  exists w',
    generate_question.get_user_choice strip_blanks decimal_int
      "Difficulty level?" ["easy"; "medium"; "hard"] canned_service
      (terminal [Line "2"]) = (w', Done "medium") /\
    "medium" ∈ ["easy"; "medium"; "hard"] /\
    calls w' = [].
Proof.
  eexists. split; [vm_compute; reflexivity |].
  refine ((fun H => conj (proj1 H) (proj2 (proj2 H)))
            (get_user_choice_returns_an_option strip_blanks decimal_int
               "Difficulty level?" ["easy"; "medium"; "hard"] canned_service
               (terminal [Line "2"]) _ "medium" _)).
  vm_compute; reflexivity.
Defined.

Lemma X15_witness_zero_then_two :
  exists v out,
    ["easy"; "medium"; "hard"] !! Z.to_nat (2 - 1) = Some v /\
    generate_question.get_user_choice strip_blanks decimal_int
      "Difficulty level?" ["easy"; "medium"; "hard"] canned_service
      (terminal [Line "0"; Line "9"; Line " 2 "; Line "left"])
    = (MkWorld [Line "left"] out None [], Done v).
Proof.
  apply (get_user_choice_retries_until_valid strip_blanks decimal_int
           "Difficulty level?" ["easy"; "medium"; "hard"] canned_service
           (terminal [Line "0"; Line "9"; Line " 2 "; Line "left"])
           [Line "0"; Line "9"] " 2 " 2 [Line "left"]).
  - reflexivity.
  - apply Forall_cons_2.
    { exists "0", 0%Z. split; [reflexivity |].
      split; [vm_compute; reflexivity | cbn; lia]. }
    apply Forall_cons_2; [| apply Forall_nil_2].
    exists "9", 9%Z. split; [reflexivity |].
    split; [vm_compute; reflexivity | cbn; lia].
  - vm_compute; reflexivity.
  - cbn; lia.
Defined.

Lemma X16_witness_letters_exit :
  exists out,
    generate_question.get_user_choice strip_blanks decimal_int
      "Difficulty level?" ["easy"; "medium"; "hard"] canned_service
      (terminal [Line "7"; Line "hard"; Line "3"])
    = (MkWorld [Line "3"] out None [], SysExit 0).
Proof.
  apply (get_user_choice_exits_on_garbage strip_blanks decimal_int
           "Difficulty level?" ["easy"; "medium"; "hard"] canned_service
           (terminal [Line "7"; Line "hard"; Line "3"])
           [Line "7"] (Line "hard") [Line "3"]).
  - reflexivity.
  - apply Forall_cons_2; [| apply Forall_nil_2].
    exists "7", 7%Z. split; [reflexivity |].
    split; [vm_compute; reflexivity | cbn; lia].
  - right. exists "hard". split; [reflexivity | vm_compute; reflexivity].
Defined.

Lemma X17_witness_input_closed :
  exists out,
    generate_question.get_user_choice strip_blanks decimal_int
      "Difficulty level?" ["easy"; "medium"; "hard"] canned_service
      (terminal [Line "4"])
    = (MkWorld [] out None [],
       Uncaught (Raise "EOFError" "EOF when reading a line")).
Proof.
  apply (get_user_choice_end_of_input strip_blanks decimal_int
           "Difficulty level?" ["easy"; "medium"; "hard"] canned_service
           (terminal [Line "4"])).
  apply Forall_cons_2; [| apply Forall_nil_2].
  exists "4", 4%Z. split; [reflexivity |].
  split; [vm_compute; reflexivity | cbn; lia].
Defined.

Lemma X18_witness_two_blank_lines :
  generate_question.get_text_input strip_blanks "Topic: " canned_service
    (terminal [Line ""; Line "   "; Line " heaps "; Line "2"])
  = (MkWorld [Line "2"]
       ["Topic: "; "Please enter a value." +:+ nl;
        "Topic: "; "Please enter a value." +:+ nl; "Topic: "]
       None [],
     Done "heaps").
Proof.
  apply (get_text_input_skips_blank_lines strip_blanks "Topic: " canned_service
           (terminal [Line ""; Line "   "; Line " heaps "; Line "2"])
           [Line ""; Line "   "] " heaps " [Line "2"]).
  - reflexivity.
  - apply Forall_cons_2; [exists ""; split; reflexivity |].
    apply Forall_cons_2; [exists "   "; split; reflexivity |].
    apply Forall_nil_2.
  - vm_compute. discriminate.
Defined.

Lemma X19_witness_topic_stripped :
  exists w',
    generate_question.get_text_input strip_blanks "Topic: " canned_service
      (terminal [Line "  "; Line " heaps "]) = (w', Done "heaps") /\
    "heaps" <> "" /\ calls w' = [].
Proof.
  eexists. split; [vm_compute; reflexivity |].
  refine ((fun H => conj (proj1 H) (proj2 (proj2 H)))
            (get_text_input_returns_nonempty strip_blanks "Topic: "
               canned_service (terminal [Line "  "; Line " heaps "]) _
               "heaps" _)).
  vm_compute; reflexivity.
Defined.

(** ** The two modes of the script *)

Ltac run_prints :=
  repeat (first [rewrite io_bind_run, print_run | rewrite print_run];
          cbn [fst snd stdin stdout configured calls]).

Lemma print_banner_run lm w :
  exists out,
    generate_question.print_banner lm w
    = (MkWorld (stdin w) (stdout w ++ out) (configured w) (calls w), Done tt).
Proof.
  unfold generate_question.print_banner.
  run_prints. eexists. rewrite <- !app_assoc. reflexivity.
Qed.

Section ScriptFacts.
Variable strip : string -> string.
Variable int : string -> option Z.

(** Reading a choice or a text leaves the configuration and the calls as
    they were; a choice returned is in the menu, a text returned is not
    empty. *)
Lemma get_user_choice_shape prompt options lm w :
  exists rest out r,
    generate_question.get_user_choice strip int prompt options lm w
    = (MkWorld rest out (configured w) (calls w), r) /\
    (forall v, r = Done v -> v ∈ options).
Proof.
  destruct (generate_question.get_user_choice strip int prompt options lm w)
    as [w' r] eqn:H.
  destruct (get_user_choice_run strip int prompt options lm w) as [menu Hrun].
  rewrite Hrun in H.
  destruct (generate_question.get_user_choice_loop strip int options
              (stdin w) (stdout w ++ menu)) as [[rest out] r'] eqn:Hloop.
  inversion H; subst. exists rest, out, r. split; [reflexivity |].
  intros v ->.
  apply get_user_choice_loop_done in Hloop as (s & n & _ & _ & _ & Ho).
  eapply list_elem_of_lookup_2, Ho.
Qed.

Lemma get_text_input_loop_done prompt pending out rest out' v :
  generate_question.get_text_input_loop strip prompt pending out
    = (rest, out', Done v) ->
  v <> "".
Proof.
  revert out. induction pending as [| ev pending IH]; intros out H.
  - discriminate H.
  - cbn [generate_question.get_text_input_loop] in H.
    destruct ev as [s |]; [| discriminate H].
    case_bool_decide as Hs.
    + inversion H; subst. assumption.
    + eapply IH, H.
Qed.

Lemma get_text_input_shape prompt lm w :
  exists rest out r,
    generate_question.get_text_input strip prompt lm w
    = (MkWorld rest out (configured w) (calls w), r) /\
    (forall v, r = Done v -> v <> "").
Proof.
  unfold generate_question.get_text_input.
  destruct (generate_question.get_text_input_loop strip prompt
              (stdin w) (stdout w)) as [[rest out] r] eqn:Hloop.
  exists rest, out, r. split; [reflexivity |].
  intros v ->. eapply get_text_input_loop_done, Hloop.
Qed.

(** The first line typed is taken when it is acceptable. *)
Lemma get_user_choice_first_valid prompt options lm s rest out cfg log n :
  int (strip s) = Some n ->
  (1 <= n <= Z.of_nat (length options))%Z ->
  exists v out',
    options !! Z.to_nat (n - 1) = Some v /\
    generate_question.get_user_choice strip int prompt options lm
      (MkWorld (Line s :: rest) out cfg log)
    = (MkWorld rest out' cfg log, Done v).
Proof.
  intros Hint Hn.
  destruct (lookup_lt_is_Some_2 options (Z.to_nat (n - 1))) as [v Hv]; [lia |].
  destruct (get_user_choice_run strip int prompt options lm
              (MkWorld (Line s :: rest) out cfg log)) as [menu Hrun].
  rewrite Hrun. cbn [stdin stdout configured calls
                     generate_question.get_user_choice_loop].
  rewrite Hint, bool_decide_eq_true_2 by lia. rewrite Hv.
  exists v. eexists. split; reflexivity.
Qed.

Lemma get_text_input_first_nonblank prompt lm s rest out cfg log :
  strip s <> "" ->
  generate_question.get_text_input strip prompt lm
    (MkWorld (Line s :: rest) out cfg log)
  = (MkWorld rest (out ++ [prompt]) cfg log, Done (strip s)).
Proof.
  intros Hs. unfold generate_question.get_text_input.
  cbn [stdin stdout configured calls generate_question.get_text_input_loop].
  now rewrite bool_decide_eq_true_2.
Qed.

(** After the call into the generator, the script only prints. *)
Lemma call_then_print {A} (m : M A) (k : A -> IO unit) lm w :
  (forall a w1, calls (k a lm w1).1 = calls w1 /\
                stdin (k a lm w1).1 = stdin w1 /\
                configured (k a lm w1).1 = configured w1 /\
                (k a lm w1).2 = Done tt) ->
  let run := m lm (calls w) in
  let result := (call_module m ≫= k) lm w in
  calls result.1 = run.1 /\
  stdin result.1 = stdin w /\
  configured result.1 = configured w /\
  result.2 = match run.2 with
             | Returned _ => Done tt
             | Raised e => Uncaught e
             end.
Proof.
  intros Hk. cbv zeta. rewrite io_bind_run. unfold call_module.
  destruct (m lm (calls w)) as [log [a | e]]; cbn [fst snd].
  - destruct (Hk a (MkWorld (stdin w) (stdout w) (configured w) log))
      as (H1 & H2 & H3 & H4).
    rewrite H1, H2, H3, H4. auto.
  - auto.
Qed.

Ltac prints_only := intros; run_prints; auto.

Lemma generate_question_quick_run topic lm w :
  let run := CompleteInterviewGenerator.forward (PyStr topic) (PyStr "coding")
               (PyStr "medium") (Some (PyInt 2)) lm (calls w) in
  let result := generate_question.generate_question_quick topic None None
                  lm w in
  calls result.1 = run.1 /\
  stdin result.1 = stdin w /\
  configured result.1 = configured w /\
  result.2 = match run.2 with
             | Returned _ => Done tt
             | Raised e => Uncaught e
             end.
Proof.
  cbv zeta. unfold generate_question.generate_question_quick. cbv zeta.
  cbn [default].
  rewrite io_bind_run.
  destruct (print_banner_run lm w) as [o1 ->].
  rewrite io_bind_run, print_run.
  match goal with
  | |- context [(call_module ?m ≫= ?k) lm ?w1] =>
      pose proof (call_then_print m k lm w1) as Hc
  end.
  cbv zeta in Hc. cbn [stdin calls configured] in Hc. apply Hc.
  prints_only.
Qed.

(** X20. The quick mode asks for a medium coding question with two
    follow-ups on the topic it was given, whatever that is, and reads
    nothing: its calls are those of the one invocation of
    [CompleteInterviewGenerator.forward] with these arguments, and an
    exception of that invocation escapes the script. *)
Theorem generate_question_quick_invocation topic lm w :
  let run := CompleteInterviewGenerator.forward (PyStr topic) (PyStr "coding")
               (PyStr "medium") (Some (PyInt 2)) lm (calls w) in
  let result := generate_question.generate_question_quick topic None None
                  lm w in
  calls result.1 = run.1 /\
  stdin result.1 = stdin w /\
  result.2 = match run.2 with
             | Returned _ => Done tt
             | Raised e => Uncaught e
             end.
Proof.
  cbv zeta.
  destruct (generate_question_quick_run topic lm w) as (H1 & H2 & _ & H4).
  auto.
Qed.

Ltac read_choice Hopt :=
  rewrite io_bind_run;
  match goal with
  | |- context [generate_question.get_user_choice strip int ?p ?o ?lm ?w1] =>
      destruct (get_user_choice_shape p o lm w1)
        as (?rest & ?out & [?v | ?code | ?e] & -> & Hopt);
      cbn [fst snd stdin stdout configured calls];
      [ specialize (Hopt _ eq_refl) | left; reflexivity | left; reflexivity ]
  end.

(** X21. The interactive mode reaches the generator only with values from
    its menus: a question type that the dispatch accepts, a topic that is
    not empty, one of the three difficulty levels, and the number read from
    one of the options 1 to 4.  Otherwise it ends without a predictor
    call. *)
Theorem generate_question_interactive_invocation lm w :
  let result := generate_question.generate_question_interactive strip int
                  lm w in
  calls result.1 = calls w \/
  exists question_type topic difficulty choice num_followups,
    question_type ∈ ["coding"; "ml_theory"; "ml_practical"] /\
    topic <> "" /\
    difficulty ∈ ["easy"; "medium"; "hard"] /\
    choice ∈ ["1"; "2"; "3"; "4"] /\
    int choice = Some num_followups /\
    let run := CompleteInterviewGenerator.forward (PyStr topic)
                 (PyStr question_type) (PyStr difficulty)
                 (Some (PyInt num_followups)) lm (calls w) in
    calls result.1 = run.1 /\
    result.2 = match run.2 with
               | Returned _ => Done tt
               | Raised e => Uncaught e
               end.
Proof.
  cbv zeta. unfold generate_question.generate_question_interactive.
  cbv zeta. rewrite io_bind_run.
  destruct (print_banner_run lm w) as [o1 ->].
  read_choice Hmenu.
  assert (Htype : exists question_type,
            ({[ "Coding/Algorithms" := "coding";
                "ML Theory" := "ml_theory";
                "ML Practical" := "ml_practical" ]} : gmap string string) !! v
            = Some question_type /\
            question_type ∈ ["coding"; "ml_theory"; "ml_practical"]).
  { repeat (apply elem_of_cons in Hmenu as [-> | Hmenu];
            [eexists; split; [vm_compute; reflexivity | repeat constructor] |]).
    now apply elem_of_nil in Hmenu. }
  destruct Htype as (question_type & Hlookup & Htype).
  rewrite io_bind_run. unfold generate_question.getitem.
  rewrite Hlookup. cbn [mret IO_ret].
  rewrite io_bind_run, print_run. cbn [fst snd stdin stdout configured calls].
  rewrite io_bind_run.
  match goal with
  | |- context [generate_question.get_text_input strip ?p ?lm ?w1] =>
      destruct (get_text_input_shape p lm w1)
        as (rest1 & out1 & [topic | code | e] & -> & Htopic);
      cbn [fst snd stdin stdout configured calls];
      [ specialize (Htopic _ eq_refl) | left; reflexivity | left; reflexivity ]
  end.
  read_choice Hdifficulty.
  read_choice Hchoice.
  rewrite io_bind_run. unfold generate_question.int_or_raise.
  destruct (int v1) as [num_followups |] eqn:Hint;
    [| left; reflexivity].
  cbn [mret IO_ret].
  do 3 (rewrite io_bind_run, print_run;
        cbn [fst snd stdin stdout configured calls]).
  right. exists question_type, topic, v0, v1, num_followups.
  repeat (split; [assumption |]).
  match goal with
  | |- context [(call_module ?m ≫= ?k) lm ?w1] =>
      pose proof (call_then_print m k lm w1) as Hc
  end.
  cbv zeta in Hc. cbn [stdin calls configured] in Hc.
  destruct Hc as (Hc1 & _ & _ & Hc3); [prints_only |].
  split; assumption.
Qed.

(** X22. When the four answers are acceptable as they come, the interactive
    mode invokes the generator with the type at the chosen position of
    coding, ml_theory, ml_practical, the topic line stripped, the difficulty
    at the chosen position of easy, medium, hard, and the number chosen for
    the follow-ups; it reads these four lines and no more. *)
Theorem generate_question_interactive_menu_path
    lm w s1 s2 s3 s4 rest t d k :
  stdin w = Line s1 :: Line s2 :: Line s3 :: Line s4 :: rest ->
  int (strip s1) = Some t -> (1 <= t <= 3)%Z ->
  strip s2 <> "" ->
  int (strip s3) = Some d -> (1 <= d <= 3)%Z ->
  int (strip s4) = Some k -> (1 <= k <= 4)%Z ->
  int "1" = Some 1%Z -> int "2" = Some 2%Z ->
  int "3" = Some 3%Z -> int "4" = Some 4%Z ->
  exists question_type difficulty,
    ["coding"; "ml_theory"; "ml_practical"] !! Z.to_nat (t - 1)
      = Some question_type /\
    ["easy"; "medium"; "hard"] !! Z.to_nat (d - 1) = Some difficulty /\
    let run := CompleteInterviewGenerator.forward (PyStr (strip s2))
                 (PyStr question_type) (PyStr difficulty) (Some (PyInt k))
                 lm (calls w) in
    let result := generate_question.generate_question_interactive strip int
                    lm w in
    calls result.1 = run.1 /\
    stdin result.1 = rest /\
    result.2 = match run.2 with
               | Returned _ => Done tt
               | Raised e => Uncaught e
               end.
Proof.
  intros Hin H1 Ht H2 H3 Hd H4 Hk Hi1 Hi2 Hi3 Hi4.
  destruct w as [inp out cfg log]. cbn [stdin calls] in *. subst inp.
  cbv zeta. unfold generate_question.generate_question_interactive.
  cbv zeta. rewrite io_bind_run.
  destruct (print_banner_run lm
              (MkWorld (Line s1 :: Line s2 :: Line s3 :: Line s4 :: rest)
                 out cfg log)) as [o1 ->].
  cbn [stdin stdout configured calls].
  destruct (get_user_choice_first_valid
              "What type of question do you want?"
              ["Coding/Algorithms"; "ML Theory"; "ML Practical"] lm
              s1 (Line s2 :: Line s3 :: Line s4 :: rest) (out ++ o1) cfg log
              t H1 Ht) as (v1 & out1 & Hv1 & Hrun1).
  rewrite (io_bind_done _ _ _ _ _ _ Hrun1). clear Hrun1.
  assert (Htype : exists question_type,
            ["coding"; "ml_theory"; "ml_practical"] !! Z.to_nat (t - 1)
              = Some question_type /\
            ({[ "Coding/Algorithms" := "coding";
                "ML Theory" := "ml_theory";
                "ML Practical" := "ml_practical" ]} : gmap string string)
              !! v1 = Some question_type).
  { assert (Hcases : (t = 1 \/ t = 2 \/ t = 3)%Z) by lia.
    destruct Hcases as [-> | [-> | ->]]; cbn in Hv1; inversion Hv1; subst;
      eexists; (split; [reflexivity | vm_compute; reflexivity]). }
  destruct Htype as (question_type & Hqt & Hlookup).
  rewrite io_bind_run. unfold generate_question.getitem.
  rewrite Hlookup. cbn [mret IO_ret].
  rewrite io_bind_run, print_run. cbn [fst snd stdin stdout configured calls].
  rewrite (io_bind_done _ _ _ _ _ _
             (get_text_input_first_nonblank "Topic: " lm s2 _ _ _ _ H2)).
  destruct (get_user_choice_first_valid
              (nl +:+ "Difficulty level?") ["easy"; "medium"; "hard"] lm
              s3 (Line s4 :: rest)
              ((out1 ++
                [(nl +:+
                  "What topic? (e.g., 'binary trees', 'neural networks', 'gradient descent')")
                 +:+ nl]) ++ ["Topic: "]) cfg log
              d H3 Hd) as (difficulty & out3 & Hdiff & Hrun3).
  rewrite (io_bind_done _ _ _ _ _ _ Hrun3). clear Hrun3.
  destruct (get_user_choice_first_valid
              (nl +:+ "How many follow-up questions?") ["1"; "2"; "3"; "4"]
              lm s4 rest out3 cfg log k H4 Hk)
    as (choice & out4 & Hchoice & Hrun4).
  rewrite (io_bind_done _ _ _ _ _ _ Hrun4). clear Hrun4.
  assert (Hnum : int choice = Some k).
  { assert (Hcases : (k = 1 \/ k = 2 \/ k = 3 \/ k = 4)%Z) by lia.
    destruct Hcases as [-> | [-> | [-> | ->]]];
      cbn in Hchoice; inversion Hchoice; subst; assumption. }
  rewrite io_bind_run. unfold generate_question.int_or_raise.
  rewrite Hnum. cbn [mret IO_ret].
  do 3 (rewrite io_bind_run, print_run;
        cbn [fst snd stdin stdout configured calls]).
  exists question_type, difficulty.
  split; [exact Hqt |]. split; [exact Hdiff |].
  match goal with
  | |- context [(call_module ?m ≫= ?k) lm ?w1] =>
      pose proof (call_then_print m k lm w1) as Hc
  end.
  cbv zeta in Hc. cbn [stdin calls configured] in Hc.
  destruct Hc as (Hc1 & Hc2 & _ & Hc3); [prints_only |].
  auto.
Qed.

(** X23. Without a key, unset or empty, [main] writes the setup
    instructions and exits with status 1, whatever the arguments: nothing
    is read, no model is configured and no predictor is called. *)
Theorem main_without_key_exits OPENAI_API_KEY argv lm w :
  OPENAI_API_KEY = None \/ OPENAI_API_KEY = Some "" ->
  generate_question.main strip int OPENAI_API_KEY argv lm w
  = (MkWorld (stdin w)
       (stdout w ++
        ["Error: OPENAI_API_KEY not found!" +:+ nl;
         (nl +:+ "Setup instructions:") +:+ nl;
         "1. Copy .env.example to .env" +:+ nl;
         "2. Add your OpenAI API key to .env" +:+ nl;
         "3. Run this script again" +:+ nl])
       (configured w) (calls w),
     SysExit 1).
Proof.
  intros Hkey. unfold generate_question.main, generate_question.setup_dspy.
  cbv zeta. rewrite (bool_decide_eq_true_2 _ Hkey).
  rewrite io_bind_run. run_prints.
  unfold sys_exit. cbn [stdin stdout configured calls].
  now rewrite <- !app_assoc.
Qed.

(** X24. With a key and at least one argument, [main] configures the model
    with that key and runs the quick mode on the arguments joined by single
    spaces: it reads nothing from the terminal, and its calls are those of
    one invocation of the generator for a medium coding question with two
    follow-ups on that topic. *)
Theorem main_with_arguments key argv lm w :
  key <> "" ->
  1 < length argv ->
  let topic := String.concat " " (drop 1 argv) in
  let run := CompleteInterviewGenerator.forward (PyStr topic) (PyStr "coding")
               (PyStr "medium") (Some (PyInt 2)) lm (calls w) in
  let result := generate_question.main strip int (Some key) argv lm w in
  calls result.1 = run.1 /\
  stdin result.1 = stdin w /\
  configured result.1 = Some ("openai/gpt-4o-mini", key) /\
  result.2 = match run.2 with
             | Returned _ => Done tt
             | Raised e => Uncaught e
             end.
Proof.
  intros Hkey Hargs. cbv zeta.
  unfold generate_question.main, generate_question.setup_dspy. cbv zeta.
  assert (Hset : ~ (Some key = None \/ Some key = Some ""))
    by (intros [H | H]; [discriminate H | congruence]).
  rewrite (bool_decide_eq_false_2 _ Hset).
  rewrite io_bind_run. unfold dspy_configure.
  rewrite (bool_decide_eq_true_2 _ Hargs).
  cbn [default].
  match goal with
  | |- context [generate_question.generate_question_quick ?tp None None lm ?w1] =>
      destruct (generate_question_quick_run tp lm w1) as (H1 & H2 & H3 & H4)
  end.
  cbn [stdin calls configured] in *. auto.
Qed.
End ScriptFacts.

Lemma X22_witness_ml_theory_hard_four :
  exists question_type difficulty,
    ["coding"; "ml_theory"; "ml_practical"] !! Z.to_nat (2 - 1)
      = Some question_type /\
    ["easy"; "medium"; "hard"] !! Z.to_nat (3 - 1) = Some difficulty /\
    let w := terminal [Line "2"; Line " gradient descent "; Line "3";
                       Line "4"; Line "left"] in
    let run := CompleteInterviewGenerator.forward
                 (PyStr (strip_blanks " gradient descent "))
                 (PyStr question_type) (PyStr difficulty) (Some (PyInt 4))
                 canned_service (calls w) in
    let result := generate_question.generate_question_interactive
                    strip_blanks decimal_int canned_service w in
    calls result.1 = run.1 /\
    stdin result.1 = [Line "left"] /\
    result.2 = match run.2 with
               | Returned _ => Done tt
               | Raised e => Uncaught e
               end.
Proof.
  apply (generate_question_interactive_menu_path strip_blanks decimal_int
           canned_service
           (terminal [Line "2"; Line " gradient descent "; Line "3";
                      Line "4"; Line "left"])
           "2" " gradient descent " "3" "4" [Line "left"] 2 3 4);
    first [ reflexivity | lia | (vm_compute; discriminate) ].
Defined.

Lemma X23_witness_no_key :
  generate_question.main strip_blanks decimal_int None
    ["generate_question.py"; "heaps"] canned_service (terminal [Line "1"])
  = (MkWorld [Line "1"]
       ["Error: OPENAI_API_KEY not found!" +:+ nl;
        (nl +:+ "Setup instructions:") +:+ nl;
        "1. Copy .env.example to .env" +:+ nl;
        "2. Add your OpenAI API key to .env" +:+ nl;
        "3. Run this script again" +:+ nl]
       None [],
     SysExit 1).
Proof.
  apply (main_without_key_exits strip_blanks decimal_int None
           ["generate_question.py"; "heaps"] canned_service
           (terminal [Line "1"])).
  left. reflexivity.
Defined.

Lemma X24_witness_two_words :
  let w := terminal [Line "1"] in
  let run := CompleteInterviewGenerator.forward (PyStr "binary trees")
               (PyStr "coding") (PyStr "medium") (Some (PyInt 2))
               canned_service (calls w) in
  let result := generate_question.main strip_blanks decimal_int
                  (Some "sk-test") ["generate_question.py"; "binary"; "trees"]
                  canned_service w in
  calls result.1 = run.1 /\
  stdin result.1 = [Line "1"] /\
  configured result.1 = Some ("openai/gpt-4o-mini", "sk-test") /\
  result.2 = match run.2 with
             | Returned _ => Done tt
             | Raised e => Uncaught e
             end.
Proof.
  apply (main_with_arguments strip_blanks decimal_int "sk-test"
           ["generate_question.py"; "binary"; "trees"] canned_service
           (terminal [Line "1"])).
  - discriminate.
  - cbn. lia.
Defined.

(** * The package and the script as a whole *)

(** X25. Of the classes that signatures.py and modules.py define, the
    package lets one import exactly those listed in [__all__]; every name of
    [__all__] is an attribute of the package, and is defined in the file it
    is imported from.  The coding and ML signatures and generators and
    [CompleteInterviewGenerator] are not among them. *)
Theorem package_exposes_exactly_all :
  (forall name,
     name ∈ package.signatures_classes ++ package.modules_classes ->
     package.import_from [name] = Returned tt <-> name ∈ package.all) /\
  Forall (fun name => name ∈ package.attributes) package.all /\
  Forall (fun name => name ∈ package.signatures_classes)
    package.from_signatures /\
  Forall (fun name => name ∈ package.modules_classes) package.from_modules.
Proof.
  split.
  - intros name Hin.
    repeat (apply elem_of_cons in Hin as [-> | Hin];
            [vm_compute; split;
             [ intros H; first [discriminate H | repeat constructor]
             | intros H; first [reflexivity |
                 repeat (apply elem_of_cons in H as [H | H];
                         [discriminate H |]);
                 now apply elem_of_nil in H] ] |]).
    now apply elem_of_nil in Hin.
  - repeat split; repeat (apply Forall_cons_2; [repeat constructor |]);
      apply Forall_nil_2.
Qed.

Lemma X25_witness_complete_generator :
  "CompleteInterviewGenerator"
    ∈ package.signatures_classes ++ package.modules_classes /\
  "CompleteInterviewGenerator" ∉ package.all /\
  package.import_from ["CompleteInterviewGenerator"] <> Returned tt.
Proof.
  split; [repeat constructor |].
  assert (Hnot : "CompleteInterviewGenerator" ∉ package.all).
  { intros H.
    repeat (apply elem_of_cons in H as [H | H]; [discriminate H |]).
    now apply elem_of_nil in H. }
  split; [exact Hnot |].
  intros Himp. apply Hnot.
  apply (proj1 (proj1 package_exposes_exactly_all
                  "CompleteInterviewGenerator" ltac:(repeat constructor))).
  exact Himp.
Defined.

(** X26. Run as a script, generate_question.py never gets to [main]: its
    import of [CompleteInterviewGenerator] from the package raises
    [ImportError], whatever the key, the arguments and the input are;
    nothing is written or read and no predictor is called. *)
Theorem script_fails_at_import strip int OPENAI_API_KEY argv lm w :
  generate_question.script strip int OPENAI_API_KEY argv lm w
  = (w, Uncaught (Raise "ImportError"
                    "cannot import name 'CompleteInterviewGenerator' from 'interview_generator'")).
Proof. reflexivity. Qed.
